(** * Secure Code Runner Service: the restricted execution engine

    A shallow embedding of [secure_code_runner/runner_service.py]:
    the static keyword scan, the sandbox namespace built by
    [create_execution_environment], and the request handler
    [execute_cleaning_code] with its two [try]/[except Exception]
    blocks.  pandas' JSON codec and Python's [exec] are libraries of
    the host; they are parameters of the development (record [Host]). *)

From stdpp Require Import base strings gmap list pretty.
From Stdlib Require Import ZArith.

Set Warnings "-register-all".
Open Scope string_scope.
Open Scope list_scope.

(** ** Python strings *)

(** [keyword in s] on [str]: [keyword] occurs in [s] as a contiguous run
    of characters, at any position. *)
Fixpoint str_in (keyword s : string) : bool :=
  String.prefix keyword s ||
  match s with
  | EmptyString => false
  | String _ rest => str_in keyword rest
  end.

(** ** Exceptions *)

(** The classes of the exception hierarchy that matter to an
    [except Exception] clause: [SystemExit], [KeyboardInterrupt] and
    [GeneratorExit] derive from [BaseException] only. *)
Inductive ExcClass : Type :=
| SystemExit
| KeyboardInterrupt
| GeneratorExit
| TypeError
| KeyError
| NameError
| AttributeError
| ValueError
| SyntaxError
| ZeroDivisionError
| FloatingPointError
| MemoryError
| RecursionError
| LibraryError (qualname : string).   (* e.g. numpy.linalg.LinAlgError *)

Inductive PyExc : Type :=
| Exc (cls : ExcClass) (msg : string)
| HTTPException (status_code : Z) (detail : string).

Definition class_derives_from_Exception (c : ExcClass) : bool :=
  match c with
  | SystemExit | KeyboardInterrupt | GeneratorExit => false
  | _ => true
  end.

(** [isinstance(e, Exception)] *)
Definition derives_from_Exception (e : PyExc) : bool :=
  match e with
  | Exc c _ => class_derives_from_Exception c
  | HTTPException _ _ => true
  end.

(** [str(e)] *)
Definition exc_str (e : PyExc) : string :=
  match e with
  | Exc _ msg => msg
  | HTTPException status_code detail => pretty status_code +:+ ": " +:+ detail
  end.

Inductive Result (A : Type) : Type :=
| Ok (a : A)
| Raise (e : PyExc).
Arguments Ok {A} a.
Arguments Raise {A} e.

(** ** Objects visible to a snippet *)

Definition loc : Type := positive.

(** The three modules imported at the top of the service "as the ONLY
    libraries we will let the LLM's code use". *)
Inductive Library : Type := pandas | numpy | scipy.

Inductive Value : Type :=
| VBuiltin (name : string)            (* the host's builtin function or type of that name *)
| VBool (b : bool)
| VNone
| VModule (m : Library)               (* a handle to the whole imported module *)
| VDict (d : gmap string Value)
| VFrame (l : loc)                    (* a reference to a DataFrame object *)
| VObject (repr : string).            (* any other object a snippet creates *)

(** A dict used as globals and locals of [exec]. *)
Abbreviation Namespace := (gmap string Value).

(** Name lookup for code run by [exec(code, g, g)]: the dict itself, then
    the dict stored under its [__builtins__] key; otherwise NameError. *)
Definition resolve (ns : Namespace) (name : string) : option Value :=
  match ns !! name with
  | Some v => Some v
  | None =>
      match ns !! "__builtins__" with
      | Some (VDict builtins) => builtins !! name
      | _ => None
      end
  end.

(** The frames a namespace refers to directly. *)
Definition frame_of (v : Value) : option loc :=
  match v with VFrame l => Some l | _ => None end.

Definition refs (ns : Namespace) : list loc :=
  omap (fun kv => frame_of kv.2) (map_to_list ns).

(** ** The request and response models *)

Record ExecutionRequest : Type := {
  dataframe_json : string;
  code_snippet : string
}.

Record ExecutionResponse : Type := {
  cleaned_dataframe_json : option string;
  success : bool;
  error_message : option string
}.

(** ** The host: pandas and the interpreter *)

Record Host : Type := {
  DataFrame : Type;
  (** [pd.read_json(io.StringIO(s), orient='records')] *)
  read_json : string -> Result DataFrame;
  (** [exec(code, g, g)]: runs [code] against the namespace [g] and the
      heap of DataFrame objects; returns the updated namespace or raises,
      and in both cases the heap it leaves behind.  What a run does to
      the module tables of the process is the subject of [Process]
      below. *)
  exec : string -> Namespace -> gmap loc DataFrame ->
         Result Namespace * gmap loc DataFrame;
  (** [obj.to_json(orient='records')] on whatever [df] is bound to,
      followed by the validation of the response.  A result that is not
      a string makes the response model raise inside the same [try]
      block and counts as a raise here; a result of [None], which the
      response model accepts, is not represented. *)
  to_json : gmap loc DataFrame -> Value -> Result string
}.

(** What the handler does that the outside can observe: its lines on
    stdout and its calls into pandas and the interpreter. *)
Inductive Event : Type :=
| Print (line : string)
| ReadJson (payload : string)
| FrameCopy (src dst : loc)
| Exec (code : string) (globals : Namespace)
| ToJson (obj : Value).

Section Runner.
Context (host : Host).

Abbreviation Heap := (gmap loc (DataFrame host)).

(** Statements run against the heap, may raise, and leave a trace. *)
Definition M (A : Type) : Type := Heap -> Result A * Heap * list Event.

Definition ret {A} (a : A) : M A := fun h => (Ok a, h, []).

Definition bind {A B} (m : M A) (k : A -> M B) : M B :=
  fun h =>
    match m h with
    | (Ok a, h1, t1) =>
        match k a h1 with (r, h2, t2) => (r, h2, t1 ++ t2) end
    | (Raise e, h1, t1) => (Raise e, h1, t1)
    end.

Definition raise {A} (e : PyExc) : M A := fun h => (Raise e, h, []).

Definition emit (ev : Event) : M unit := fun h => (Ok tt, h, [ev]).

(** [try: body  except Exception as e: handler e] *)
Definition try_except_Exception {A} (body : M A) (handler : PyExc -> M A)
  : M A :=
  fun h =>
    match body h with
    | (Ok a, h1, t1) => (Ok a, h1, t1)
    | (Raise e, h1, t1) =>
        if derives_from_Exception e
        then match handler e h1 with (r, h2, t2) => (r, h2, t1 ++ t2) end
        else (Raise e, h1, t1)
    end.

Notation "x <- m ;; k" := (bind m (fun x => k))
  (at level 100, m at next level, right associativity).
Notation "m ;;; k" := (bind m (fun _ => k))
  (at level 100, right associativity).

(** [print(line)].  Texts are byte strings here, a Python [str] being
    represented by its UTF-8 encoding: a [str] that has no such encoding
    (one holding a lone surrogate), on which writing to stdout raises
    [UnicodeEncodeError], is not a value of this model, and stdout is
    taken to be open.  Within these bounds [print] returns. *)
Definition print (line : string) : M unit := emit (Print line).

(** A new DataFrame object. *)
Definition alloc (d : DataFrame host) : M loc :=
  fun h => let l := fresh (dom h) in (Ok l, <[l := d]> h, []).

Definition pd_read_json (payload : string) : M loc :=
  emit (ReadJson payload) ;;;
  match read_json host payload with
  | Ok d => alloc d
  | Raise e => raise e
  end.

(** [src.copy()]: a new object with the contents of [src].  References
    come from [alloc], so the second branch is not reached. *)
Definition frame_copy (src : loc) : M loc :=
  fun h =>
    match h !! src with
    | Some d =>
        let l := fresh (dom h) in (Ok l, <[l := d]> h, [FrameCopy src l])
    | None => (Ok src, h, [])
    end.

Definition py_exec (code : string) (globals : Namespace) : M Namespace :=
  fun h =>
    match exec host code globals h with
    | (r, h') => (r, h', [Exec code globals])
    end.

Definition frame_to_json (obj : Value) : M string :=
  fun h => (to_json host h obj, h, [ToJson obj]).

(** [d[key]] *)
Definition getitem (d : Namespace) (key : string) : M Value :=
  match d !! key with
  | Some v => ret v
  | None => raise (Exc KeyError ("'" +:+ key +:+ "'"))
  end.

(** *** create_execution_environment *)

(** A dict display [{k1: v1, ..., kn: vn}] with distinct keys. *)
Definition dict_of (items : list (string * Value)) : gmap string Value :=
  list_to_map items.

Definition safe_builtins : gmap string Value :=
  dict_of
    [ ("print", VBuiltin "print");
      ("range", VBuiltin "range");
      ("len", VBuiltin "len");
      ("str", VBuiltin "str");
      ("int", VBuiltin "int");
      ("float", VBuiltin "float");
      ("list", VBuiltin "list");
      ("dict", VBuiltin "dict");
      ("set", VBuiltin "set");
      ("tuple", VBuiltin "tuple");
      ("abs", VBuiltin "abs");
      ("max", VBuiltin "max");
      ("min", VBuiltin "min");
      ("sum", VBuiltin "sum");
      ("round", VBuiltin "round");
      ("True", VBool true);
      ("False", VBool false);
      ("None", VNone) ].

Definition safe_globals (df : loc) : Namespace :=
  dict_of
    [ ("__builtins__", VDict safe_builtins);
      ("pd", VModule pandas);
      ("np", VModule numpy);
      ("scipy", VModule scipy);
      ("df", VFrame df) ].

(** The returned dict has the one [safe_globals] object under both of
    its keys. *)
Record Env : Type := { env_globals : Namespace; env_locals : Namespace }.

Definition create_execution_environment (df_in : loc) : M Env :=
  df <- frame_copy df_in ;;
  ret {| env_globals := safe_globals df; env_locals := safe_globals df |}.

(** *** execute_cleaning_code *)

Definition FORBIDDEN_KEYWORDS : list string := ["import "; "__"].

(** [any(keyword in code for keyword in FORBIDDEN_KEYWORDS)] *)
Definition forbidden_keyword_found (code : string) : bool :=
  existsb (fun keyword => str_in keyword code) FORBIDDEN_KEYWORDS.

Definition security_violation : ExecutionResponse :=
  {| cleaned_dataframe_json := None;
     success := false;
     error_message :=
       Some "Security Violation: Code snippet contains forbidden keyword." |}.

Definition execute_cleaning_code (request : ExecutionRequest)
  : M ExecutionResponse :=
  print "--- [Runner Service] Step 1: Deserializing DataFrame ---" ;;;
  df_in <- try_except_Exception
             (pd_read_json (dataframe_json request))
             (fun e =>
                print ("--- [Runner Service] ERROR: Failed to read JSON: "
                       +:+ exc_str e +:+ " ---") ;;;
                raise (HTTPException 400
                         ("Failed to deserialize input DataFrame: "
                          +:+ exc_str e))) ;;
  print "--- [Runner Service] Step 1.5: Running static security check ---" ;;;
  if forbidden_keyword_found (code_snippet request) then
    print "--- [Runner Service] ERROR: Forbidden keyword found in code snippet. ---" ;;;
    ret security_violation
  else
    print "--- [Runner Service] Step 2: Creating secure environment ---" ;;;
    env <- create_execution_environment df_in ;;
    print ("--- [Runner Service] Step 3: Executing code: "
           +:+ code_snippet request +:+ " ---") ;;;
    try_except_Exception
      (* exec writes into the one dict behind both keys of env *)
      (after <- py_exec (code_snippet request) (env_globals env) ;;
       print "--- [Runner Service] Step 4: Execution Succeeded. Extracting cleaned data. ---" ;;;
       df_out <- getitem after "df" ;;
       print "--- [Runner Service] Step 5: Serializing cleaned data to JSON. ---" ;;;
       cleaned_json <- frame_to_json df_out ;;
       ret {| cleaned_dataframe_json := Some cleaned_json;
              success := true;
              error_message := None |})
      (fun e =>
         print ("--- [Runner Service] ERROR: Code execution failed: "
                +:+ exc_str e +:+ " ---") ;;;
         ret {| cleaned_dataframe_json := None;
                success := false;
                error_message := Some (exc_str e) |}).

End Runner.

Arguments ret {host A} a.
Arguments bind {host A B} m k.
Arguments raise {host A} e.

(** ** Observing one request *)

Definition outcome {host A} (run : Result A * gmap loc (DataFrame host) * list Event)
  : Result A := run.1.1.
Definition heap_after {host A} (run : Result A * gmap loc (DataFrame host) * list Event)
  : gmap loc (DataFrame host) := run.1.2.
Definition trace {host A} (run : Result A * gmap loc (DataFrame host) * list Event)
  : list Event := run.2.

Definition is_exec (ev : Event) : bool :=
  match ev with Exec _ _ => true | _ => false end.

Definition is_frame_copy (ev : Event) : bool :=
  match ev with FrameCopy _ _ => true | _ => false end.

(** How often the request reached [exec]. *)
Definition driver_invocations (t : list Event) : nat :=
  length (List.filter is_exec t).

(** How often the request reached [create_execution_environment]; its
    [df_in.copy()] is the only source of [FrameCopy]. *)
Definition sandbox_builds (t : list Event) : nat :=
  length (List.filter is_frame_copy t).

Definition guard_banner : string :=
  "--- [Runner Service] Step 1.5: Running static security check ---".

(** The failure response of the second [except Exception] block. *)
Definition execution_failed (e : PyExc) : ExecutionResponse :=
  {| cleaned_dataframe_json := None;
     success := false;
     error_message := Some (exc_str e) |}.

Definition execution_succeeded (cleaned_json : string) : ExecutionResponse :=
  {| cleaned_dataframe_json := Some cleaned_json;
     success := true;
     error_message := None |}.

(** The locations the request handler hands out for the deserialized
    input and for its copy. *)
Definition input_loc {D} (h : gmap loc D) : loc := fresh (dom h).
Definition copy_loc {D} (h : gmap loc D) (d : D) : loc :=
  fresh (dom (<[input_loc h := d]> h)).

(** ** The capability table *)

(** The bindings of a sandbox other than the dataset. *)
Definition capability_table (ns : Namespace) : Namespace := delete "df" ns.


Definition safe_builtin_names : list string :=
  [ "print"; "range"; "len"; "str"; "int"; "float"; "list"; "dict"; "set";
    "tuple"; "abs"; "max"; "min"; "sum"; "round"; "True"; "False"; "None" ].

Definition library_handle_names : list string := [ "pd"; "np"; "scipy" ].

(** Every name a snippet can resolve in a fresh sandbox. *)
Definition capability_names : list string :=
  "__builtins__" :: "df" :: library_handle_names ++ safe_builtin_names.

(** "We EXCLUDE 'import', 'open', 'eval', 'exec', etc." *)
Definition excluded_builtins : list string :=
  [ "__import__"; "open"; "eval"; "exec"; "compile" ].

Inductive Privilege : Type :=
| FileSystemAccess
| ProcessSpawning
| NetworkAccess
| DynamicImport
| RuntimeReflection.

#[global] Instance Privilege_eq_dec : EqDecision Privilege.
Proof. solve_decision. Defined.

#[global] Instance Library_eq_dec : EqDecision Library.
Proof. solve_decision. Defined.

(** What a snippet can do through a bound value, as far as the calls the
    repository makes itself show it.  This is a lower bound: it lists
    only what the source does through the handle [pd], and says nothing
    of what else pandas, numpy and scipy expose, which is not part of
    the source.
    - [pd.read_json(df_json_io, orient='records')]: Step 1 of the handler
      reads from a file object, "which is what pd.read_json expects";
    - [pd.read_csv(uploaded_file)]: the front end reads the uploaded file
      ([app.py]). *)
Inductive gives : Value -> Privilege -> Prop :=
| gives_pd_read_json : gives (VModule pandas) FileSystemAccess
| gives_pd_read_csv : gives (VModule pandas) FileSystemAccess.

(** ** The denylist in the words of the specification

    "any module-import syntax, any double-underscore-prefixed identifier
    access, any dynamic-evaluation primitive, any direct reference to
    process/OS/file/network primitives by name" *)
Definition minimum_denylist : list string :=
  [ "import"; "__"; "eval"; "exec"; "open"; "subprocess"; "socket" ].

Definition names_denylisted_pattern (code : string) : bool :=
  existsb (fun pattern => str_in pattern code) minimum_denylist.

(** ** Reachability of DataFrame objects *)

Inductive value_reaches : Value -> loc -> Prop :=
| reaches_frame l : value_reaches (VFrame l) l
| reaches_member (d : gmap string Value) key v l :
    d !! key = Some v -> value_reaches v l -> value_reaches (VDict d) l.

Definition reaches (ns : Namespace) (l : loc) : Prop :=
  exists name v, ns !! name = Some v /\ value_reaches v l.

(** One run of [exec], from namespace [ns] and heap [h] to result [r]
    and heap [h'], is confined when it changed only DataFrame objects
    that [ns] reaches, and the namespace it left reaches only those and
    objects made during the run.  Nothing in the handler enforces this:
    it is a property of the snippet that was run. *)
Definition confined {D} (ns : Namespace) (h : gmap loc D)
    (r : Result Namespace) (h' : gmap loc D) : Prop :=
  (forall l, is_Some (h !! l) -> ~ reaches ns l -> h' !! l = h !! l) /\
  (forall ns' l, r = Ok ns' -> reaches ns' l -> reaches ns l \/ h !! l = None).

(** ** A small host to run the handler on

    Frames are counted rows of empty records; the interpreter knows a
    handful of snippets. *)
Module Demo.

Fixpoint records (n : nat) : string :=
  match n with
  | O => ""
  | 1%nat => "{}"
  | S m => "{}," +:+ records m
  end.

Definition demo_read_json (payload : string) : Result nat :=
  if bool_decide (payload = "[]") then Ok 0%nat
  else if bool_decide (payload = "[{}]") then Ok 1%nat
  else if bool_decide (payload = "[{},{}]") then Ok 2%nat
  else Raise (Exc ValueError "Expected object or value").

Definition demo_exec (code : string) (ns : Namespace) (h : gmap loc nat)
  : Result Namespace * gmap loc nat :=
  if bool_decide (code = "") then (Ok ns, h)
  else if bool_decide (code = "del df") then (Ok (delete "df" ns), h)
  else if bool_decide (code = "df = None") then (Ok (<["df" := VNone]> ns), h)
  else if bool_decide (code = "pd = None") then (Ok (<["pd" := VNone]> ns), h)
  else if bool_decide (code = "df = df.iloc[0:0]")
       then let l := fresh (dom h) in (Ok (<["df" := VFrame l]> ns), <[l := 0%nat]> h)
  else if bool_decide (code = "df['age'] = 1 / 0")
       then (Raise (Exc ZeroDivisionError "division by zero"), h)
  else if bool_decide (code = "x = eval('1')")
       then (Raise (Exc NameError "name 'eval' is not defined"), h)
  else (Raise (Exc SyntaxError "invalid syntax"), h).

Definition demo_to_json (h : gmap loc nat) (obj : Value) : Result string :=
  match obj with
  | VFrame l =>
      match h !! l with
      | Some n => Ok ("[" +:+ records n +:+ "]")
      | None => Raise (Exc AttributeError "to_json")
      end
  | _ => Raise (Exc AttributeError "object has no attribute 'to_json'")
  end.

Definition host : Host :=
  {| DataFrame := nat;
     read_json := demo_read_json;
     exec := demo_exec;
     to_json := demo_to_json |}.

Definition request (payload code : string) : ExecutionRequest :=
  {| dataframe_json := payload; code_snippet := code |}.

End Demo.

(** ** The paths through the handler *)

(** The heap the snippet runs against: the deserialized input and its
    copy, on top of what was there before. *)
Definition sandbox_heap {D} (h : gmap loc D) (d : D) : gmap loc D :=
  <[copy_loc h d := d]> (<[input_loc h := d]> h).

(** What a request has done once it calls [exec]. *)
Definition trace_to_exec {D} (request : ExecutionRequest) (h : gmap loc D) (d : D)
  : list Event :=
  [ Print "--- [Runner Service] Step 1: Deserializing DataFrame ---";
    ReadJson (dataframe_json request);
    Print guard_banner;
    Print "--- [Runner Service] Step 2: Creating secure environment ---";
    FrameCopy (input_loc h) (copy_loc h d);
    Print ("--- [Runner Service] Step 3: Executing code: "
           +:+ code_snippet request +:+ " ---");
    Exec (code_snippet request) (safe_globals (copy_loc h d)) ].

Definition execution_failed_line (e : PyExc) : Event :=
  Print ("--- [Runner Service] ERROR: Code execution failed: "
         +:+ exc_str e +:+ " ---").

Definition step4_line : Event :=
  Print "--- [Runner Service] Step 4: Execution Succeeded. Extracting cleaned data. ---".

Definition step5_line : Event :=
  Print "--- [Runner Service] Step 5: Serializing cleaned data to JSON. ---".

Section Paths.
Context (host : Host).

(** One constructor per way through [execute_cleaning_code]: which
    calls into the host decided it, and the result, heap and trace it
    ends with. *)
Inductive path (request : ExecutionRequest) (h : gmap loc (DataFrame host))
  : Result ExecutionResponse * gmap loc (DataFrame host) * list Event -> Prop :=
| path_malformed e :
    read_json host (dataframe_json request) = Raise e ->
    derives_from_Exception e = true ->
    path request h
      (Raise (HTTPException 400
                ("Failed to deserialize input DataFrame: " +:+ exc_str e)),
       h,
       [ Print "--- [Runner Service] Step 1: Deserializing DataFrame ---";
         ReadJson (dataframe_json request);
         Print ("--- [Runner Service] ERROR: Failed to read JSON: "
                +:+ exc_str e +:+ " ---") ])
| path_read_escaped e :
    read_json host (dataframe_json request) = Raise e ->
    derives_from_Exception e = false ->
    path request h
      (Raise e, h,
       [ Print "--- [Runner Service] Step 1: Deserializing DataFrame ---";
         ReadJson (dataframe_json request) ])
| path_rejected d :
    read_json host (dataframe_json request) = Ok d ->
    forbidden_keyword_found (code_snippet request) = true ->
    path request h
      (Ok security_violation,
       <[input_loc h := d]> h,
       [ Print "--- [Runner Service] Step 1: Deserializing DataFrame ---";
         ReadJson (dataframe_json request);
         Print guard_banner;
         Print "--- [Runner Service] ERROR: Forbidden keyword found in code snippet. ---" ])
| path_exec_failed d e h' :
    read_json host (dataframe_json request) = Ok d ->
    forbidden_keyword_found (code_snippet request) = false ->
    exec host (code_snippet request) (safe_globals (copy_loc h d)) (sandbox_heap h d)
      = (Raise e, h') ->
    derives_from_Exception e = true ->
    path request h
      (Ok (execution_failed e), h',
       trace_to_exec request h d ++ [ execution_failed_line e ])
| path_exec_escaped d e h' :
    read_json host (dataframe_json request) = Ok d ->
    forbidden_keyword_found (code_snippet request) = false ->
    exec host (code_snippet request) (safe_globals (copy_loc h d)) (sandbox_heap h d)
      = (Raise e, h') ->
    derives_from_Exception e = false ->
    path request h (Raise e, h', trace_to_exec request h d)
| path_df_missing d after h' :
    read_json host (dataframe_json request) = Ok d ->
    forbidden_keyword_found (code_snippet request) = false ->
    exec host (code_snippet request) (safe_globals (copy_loc h d)) (sandbox_heap h d)
      = (Ok after, h') ->
    after !! "df" = None ->
    path request h
      (Ok (execution_failed (Exc KeyError "'df'")), h',
       trace_to_exec request h d
         ++ [ step4_line; execution_failed_line (Exc KeyError "'df'") ])
| path_succeeded d after h' df_out cleaned_json :
    read_json host (dataframe_json request) = Ok d ->
    forbidden_keyword_found (code_snippet request) = false ->
    exec host (code_snippet request) (safe_globals (copy_loc h d)) (sandbox_heap h d)
      = (Ok after, h') ->
    after !! "df" = Some df_out ->
    to_json host h' df_out = Ok cleaned_json ->
    path request h
      (Ok (execution_succeeded cleaned_json), h',
       trace_to_exec request h d ++ [ step4_line; step5_line; ToJson df_out ])
| path_to_json_failed d after h' df_out e :
    read_json host (dataframe_json request) = Ok d ->
    forbidden_keyword_found (code_snippet request) = false ->
    exec host (code_snippet request) (safe_globals (copy_loc h d)) (sandbox_heap h d)
      = (Ok after, h') ->
    after !! "df" = Some df_out ->
    to_json host h' df_out = Raise e ->
    derives_from_Exception e = true ->
    path request h
      (Ok (execution_failed e), h',
       trace_to_exec request h d
         ++ [ step4_line; step5_line; ToJson df_out; execution_failed_line e ])
| path_to_json_escaped d after h' df_out e :
    read_json host (dataframe_json request) = Ok d ->
    forbidden_keyword_found (code_snippet request) = false ->
    exec host (code_snippet request) (safe_globals (copy_loc h d)) (sandbox_heap h d)
      = (Ok after, h') ->
    after !! "df" = Some df_out ->
    to_json host h' df_out = Raise e ->
    derives_from_Exception e = false ->
    path request h
      (Raise e, h',
       trace_to_exec request h d ++ [ step4_line; step5_line; ToJson df_out ]).

End Paths.

(** ** The callers: the planner and the composition of approved steps *)

(** Counters for the other two calls into pandas. *)
Definition is_read_json (ev : Event) : bool :=
  match ev with ReadJson _ => true | _ => false end.

Definition is_to_json (ev : Event) : bool :=
  match ev with ToJson _ => true | _ => false end.

Definition parser_calls (t : list Event) : nat :=
  length (List.filter is_read_json t).

Definition serializer_calls (t : list Event) : nat :=
  length (List.filter is_to_json t).

(** The line feed and the double quote. *)
Definition newline : string := String (Ascii.ascii_of_nat 10) EmptyString.
Definition dq : string := String (Ascii.ascii_of_nat 34) EmptyString.
Definition tab : string := String (Ascii.ascii_of_nat 9) EmptyString.

(** [sep.join(parts)] *)
Fixpoint join (sep : string) (parts : list string) : string :=
  match parts with
  | [] => EmptyString
  | [part] => part
  | part :: rest => part +:+ sep +:+ join sep rest
  end.

Definition has_newline (s : string) : bool := str_in newline s.

(** [ai_engine/model_manager.py] *)
Module AiEngine.

Record CleaningStep : Type := {
  step_id : string;
  description : string;
  code_snippet : string;
  required_libraries : list string
}.

Record CleaningPlan : Type := {
  quality_score : Z;
  quality_verdict : string;
  action_summary : string;
  reasoning_audit_log : string;
  risk_and_alternative_report : string;
  target_columns : list string;
  proposed_plan : list CleaningStep
}.

(** The generative-model client and pydantic's validator. *)
Record Service : Type := {
  (** [model.generate_content(prompt, generation_config=...).text] for
      the model of that name *)
  generate_content : string -> string -> Result string;
  (** [CleaningPlan.model_validate_json(text)] *)
  model_validate_json : string -> Result CleaningPlan
}.

Inductive Call : Type :=
| Stdout (line : string)
| Configure (api_key : string)
| GenerateContent (model_name prompt : string)
| ValidateJson (text : string).

(** The attributes [__init__] may set: [model] only exists when a key
    was found. *)
Record ModelManager : Type := {
  api_key : option string;
  model : option string
}.

(** Truth value of what [os.getenv] returns: [None] and the empty
    string are false. *)
Definition truthy (value : option string) : bool :=
  match value with
  | None => false
  | Some EmptyString => false
  | Some _ => true
  end.

Definition model_name : string := "gemini-2.5-flash-preview-09-2025".

(** [ModelManager()], given [os.getenv("GEMINI_API_KEY")]. *)
Definition init (getenv : option string) : ModelManager * list Call :=
  match getenv with
  | Some key =>
      if truthy getenv
      then ({| api_key := getenv; model := Some model_name |}, [Configure key])
      else ({| api_key := getenv; model := None |},
            [Stdout "Warning: GEMINI_API_KEY not found in environment variables."])
  | None =>
      ({| api_key := getenv; model := None |},
       [Stdout "Warning: GEMINI_API_KEY not found in environment variables."])
  end.

Definition prompt_before_report : string :=
"
        You are an expert Senior Data Scientist and Python Developer.
        Your task is to analyze the provided Data Quality Report (DQR) and generate a robust data cleaning plan.

        ### YOUR CONSTRAINTS (SECURITY & RELIABILITY):
        1. **Output Format:** You must return a valid JSON object matching the `CleaningPlan` schema exactly.
        2. **Library Allowlist:** You may ONLY use the following Python libraries: `pandas` (as pd), `numpy` (as np), and `scipy` (as scipy).
        3. **No Dangerous Code:** Do NOT use `os`, `sys`, `subprocess`, or file I/O operations.
        4. **Atomic Steps:** Break your plan into small, independent steps (e.g., separate imputation from type conversion).

        ### CRITICAL INSTRUCTION ON DATA QUALITY:
        - **IF THE DATA IS ALREADY CLEAN:** Do NOT invent problems. If missing values are 0%, types are correct, and outliers are minimal, there are no duplicate rows/columns, correlation is minimal between the numerical columns, return an **EMPTY** `proposed_plan`.
        - In `action_summary`, explicitly state: "
  +:+ dq +:+
"The data appears clean. No automated actions required."
  +:+ dq +:+
"
        - In `reasoning_audit_log`, explain that you verified the DQR and found no issues.

        ### SCORING CRITERIA:
        - 100: Perfect data.
        - 80-90: Minor issues (formatting, few missing values).
        - 50-70: Significant issues (skew, many missing values, outliers).
        - Below 50: Critical issues (wrong types, high redundancy, messy).

        ### OUTPUT REQUIREMENTS:
        - quality_score: An integer based on the criteria.
        - quality_verdict: A punchy summary: "
  +:+ dq +:+
"Your data is [X]% clean. It needs [A, B, and C] adjustments to be production-ready."
  +:+ dq +:+
"
        - If the data is clean, set quality_score to 100 and proposed_plan to [].

        ### YOUR ANALYSIS GOALS (PILLAR 1 - VALUE):
        1. **Audit Log:** In the `reasoning_audit_log`, clearly explain WHY you chose specific methods (e.g., "
  +:+ dq +:+
"Chose Median imputation for Age because the DQR shows a skew of 2.5"
  +:+ dq +:+
").
        2. **Risk Report:** In the `risk_and_alternative_report`, be honest about statistical risks (e.g., "
  +:+ dq +:+
"Median imputation reduces variance"
  +:+ dq +:+
") and suggest advanced alternatives (e.g., "
  +:+ dq +:+
"KNN Imputation"
  +:+ dq +:+
").

        ### CRITICAL REQUIREMENTS:
        1. You MUST populate EVERY field in the schema, including 'target_columns'.
        2. 'target_columns' must be a list of strings representing column names you are modifying.
        3. Only use pandas (pd) and numpy (np).
        4. Do not include any text outside the JSON object.

        ### THE DATA QUALITY REPORT (INPUT):
        ".

Definition prompt_after_report : string :=
"
        ".

(** The f-string: the report is spliced in as it is. *)
Definition system_prompt (data_profile : string) : string :=
  prompt_before_report +:+ data_profile +:+ prompt_after_report.

Definition missing_key : PyExc :=
  Exc ValueError "API Key is missing. Cannot call Gemini.".

(** The body of the [try]: the call, then the validation. *)
Definition call_and_validate (service : Service) (self : ModelManager)
    (data_profile : string) : Result CleaningPlan * list Call :=
  match model self with
  | None =>
      (Raise (Exc AttributeError "'ModelManager' object has no attribute 'model'"), [])
  | Some name =>
      match generate_content service name (system_prompt data_profile) with
      | Raise e => (Raise e, [GenerateContent name (system_prompt data_profile)])
      | Ok text =>
          (model_validate_json service text,
           [GenerateContent name (system_prompt data_profile); ValidateJson text])
      end
  end.

Definition generate_cleaning_plan (service : Service) (self : ModelManager)
    (data_profile : string) : Result CleaningPlan * list Call :=
  if negb (truthy (api_key self)) then (Raise missing_key, [])
  else
    match call_and_validate service self data_profile with
    | (Ok cleaning_plan, calls) => (Ok cleaning_plan, calls)
    | (Raise e, calls) =>
        if derives_from_Exception e
        then (Raise e, calls ++ [Stdout ("Error calling Gemini API: " +:+ exc_str e)])
        else (Raise e, calls)
    end.

Definition is_generate (c : Call) : bool :=
  match c with GenerateContent _ _ => true | _ => false end.

Definition api_calls (calls : list Call) : nat :=
  length (List.filter is_generate calls).

End AiEngine.

(** [app.py]: the code of the selected steps, joined by line feeds, and
    the request posted to the runner with the serialized dataset. *)
Definition compose_code (selected : list AiEngine.CleaningStep) : string :=
  join newline (List.map AiEngine.code_snippet selected).

Definition approved_request (df_json : string)
    (selected : list AiEngine.CleaningStep) : ExecutionRequest :=
  {| dataframe_json := df_json; code_snippet := compose_code selected |}.

(** A host on which the operator interrupts every execution. *)
Module Interrupted.

Definition host : Host :=
  {| DataFrame := nat;
     read_json := Demo.demo_read_json;
     exec := fun _ _ h => (Raise (Exc KeyboardInterrupt ""), h);
     to_json := Demo.demo_to_json |}.

End Interrupted.

(** A host that knows the snippet [pd.io.common.os.sys.exit(3)]:
    [pandas.io.common] imports [os], [os.sys] is the [sys] module, and
    [sys.exit(3)] raises [SystemExit(3)], whose [str] is [3].  The snippet
    holds neither [import ] nor [__]. *)
Module Exiting.

Definition host : Host :=
  {| DataFrame := nat;
     read_json := Demo.demo_read_json;
     exec := fun code ns h =>
       if bool_decide (code = "pd.io.common.os.sys.exit(3)")
       then (Raise (Exc SystemExit "3"), h)
       else Demo.demo_exec code ns h;
     to_json := Demo.demo_to_json |}.

End Exiting.

(** A host that knows a snippet taking the handler's own [df_in]:
    [sys._getframe(1)] is the frame that called [exec], which is the
    handler's, and its [f_locals] hold [df_in].  The host is that of a
    process serving its first request, where [df_in] is object 1. *)
Module Aliasing.

Definition host : Host :=
  {| DataFrame := nat;
     read_json := Demo.demo_read_json;
     exec := fun code ns h =>
       if bool_decide
            (code = "df = pd.io.common.os.sys._getframe(1).f_locals['df_in']")
       then (Ok (<["df" := VFrame 1%positive]> ns), h)
       else Demo.demo_exec code ns h;
     to_json := Demo.demo_to_json |}.

End Aliasing.

(** A planner service that answers one report. *)
Module DemoPlanner.

Definition empty_plan : AiEngine.CleaningPlan :=
  {| AiEngine.quality_score := 100;
     AiEngine.quality_verdict := "Your data is 100% clean.";
     AiEngine.action_summary := "The data appears clean. No automated actions required.";
     AiEngine.reasoning_audit_log := "Verified the DQR.";
     AiEngine.risk_and_alternative_report := "None.";
     AiEngine.target_columns := [];
     AiEngine.proposed_plan := [] |}.

Definition service : AiEngine.Service :=
  {| AiEngine.generate_content := fun _ prompt =>
       if str_in "Total Rows: 0" prompt then Ok "{}"
       else Raise (Exc (LibraryError "google.api_core.exceptions.ResourceExhausted")
                       "429 quota exceeded");
     AiEngine.model_validate_json := fun text =>
       if bool_decide (text = "{}") then Ok empty_plan
       else Raise (Exc ValueError "validation error for CleaningPlan") |}.

Definition step (id code : string) : AiEngine.CleaningStep :=
  {| AiEngine.step_id := id;
     AiEngine.description := id;
     AiEngine.code_snippet := code;
     AiEngine.required_libraries := ["pandas"] |}.

End DemoPlanner.

(** ** The process around the executions

    [create_execution_environment] evaluates the names in its two dict
    displays each time it is called: [print] ... [round] for
    [safe_builtins], and [pd], [np], [scipy] for [safe_globals].  In a
    function body these are global names: they are looked up in the
    globals of the service module, where the imports at the top of the
    file bound the three libraries, and then in the builtins of the
    interpreter.  Both tables are mutable objects of the process, so a
    run of [exec] may leave them changed.  ([True], [False] and [None]
    are constants, not names.) *)
Module Process.

Record ModuleState : Type := {
  module_globals : gmap string Value;   (* the globals of the service module *)
  builtins : gmap string Value          (* the interpreter's builtins *)
}.

(** A global name in a function body of the service module. *)
Definition load_global (st : ModuleState) (name : string) : Result Value :=
  match module_globals st !! name with
  | Some v => Ok v
  | None =>
      match builtins st !! name with
      | Some v => Ok v
      | None => Raise (Exc NameError ("name '" +:+ name +:+ "' is not defined"))
      end
  end.

(** The entries ["name": name, ...] of a dict display, evaluated in
    order. *)
Fixpoint entries (st : ModuleState) (names : list string)
  : Result (list (string * Value)) :=
  match names with
  | [] => Ok []
  | name :: rest =>
      match load_global st name with
      | Raise e => Raise e
      | Ok v =>
          match entries st rest with
          | Raise e => Raise e
          | Ok items => Ok ((name, v) :: items)
          end
      end
  end.

Definition builtin_function_names : list string :=
  [ "print"; "range"; "len"; "str"; "int"; "float"; "list"; "dict"; "set";
    "tuple"; "abs"; "max"; "min"; "sum"; "round" ].

Definition safe_builtins (st : ModuleState) : Result (gmap string Value) :=
  match entries st builtin_function_names with
  | Raise e => Raise e
  | Ok functions =>
      Ok (dict_of (functions ++
                   [ ("True", VBool true); ("False", VBool false); ("None", VNone) ]))
  end.

(** [df] is the copy made by [df_in.copy()]. *)
Definition safe_globals (st : ModuleState) (df : loc) : Result Namespace :=
  match safe_builtins st with
  | Raise e => Raise e
  | Ok table =>
      match entries st library_handle_names with
      | Raise e => Raise e
      | Ok handles =>
          Ok (dict_of (("__builtins__", VDict table) :: handles ++ [ ("df", VFrame df) ]))
      end
  end.

(** The global names the builder reads. *)
Definition names_read : list string :=
  builtin_function_names ++ library_handle_names.

(** [exec(code, g, g)] in the process: besides the namespace it was
    given, the run may change the module tables. *)
Record Interpreter : Type := {
  exec : string -> Namespace -> ModuleState -> Result Namespace * ModuleState
}.

(** The sandboxes of two requests served one after the other: the first
    is built, the first snippet runs in it, the second is built in the
    process as that run left it. *)
Definition consecutive_sandboxes (python : Interpreter) (st : ModuleState)
    (code : string) (df1 df2 : loc) : Result (Namespace * Namespace) :=
  match safe_globals st df1 with
  | Raise e => Raise e
  | Ok first =>
      match safe_globals (exec python code first st).2 df2 with
      | Raise e => Raise e
      | Ok second => Ok (first, second)
      end
  end.

(** The process once the service module is imported, before any
    request: the entries of the two tables that matter here. *)
Definition at_import : ModuleState :=
  {| module_globals :=
       dict_of [ ("pd", VModule pandas); ("np", VModule numpy); ("scipy", VModule scipy) ];
     builtins :=
       dict_of (map (fun name => (name, VBuiltin name))
                    (builtin_function_names ++ excluded_builtins)) |}.

End Process.

(** An interpreter that knows two snippets.  [pd = None] rebinds a name
    of the snippet's own namespace.  The other one reaches the table of
    loaded modules through the [pd] handle ([pandas.io.common] imports
    [os], [os.sys] is [sys]) and assigns to an attribute of the builtins
    module; it holds neither [import ] nor [__]. *)
Module Rebinding.

Definition python : Process.Interpreter :=
  {| Process.exec := fun code ns st =>
       if bool_decide (code = "pd = None") then (Ok (<["pd" := VNone]> ns), st)
       else if bool_decide
                 (code = "pd.io.common.os.sys.modules['builtins'].round = abs")
       then (Ok ns,
             {| Process.module_globals := Process.module_globals st;
                Process.builtins :=
                  <["round" := VBuiltin "abs"]> (Process.builtins st) |})
       else (Ok ns, st) |}.

End Rebinding.

(** * Properties *)

(** ** Substring search *)

Lemma prefix_iff (k s : string) :
  String.prefix k s = true <-> exists post, s = k +:+ post.
Proof.
  revert s. induction k as [|a k IH]; intros s; simpl.
  - destruct s; split; eauto.
  - destruct s as [|b s]; simpl.
    + split; [discriminate | intros [post H]; discriminate].
    + destruct (Ascii.ascii_dec a b) as [->|Hne].
      * rewrite IH. split; intros [post H]; exists post; [by rewrite H | by injection H].
      * split; [discriminate | intros [post H]; injection H; intros; congruence].
Qed.

Lemma str_in_iff (k s : string) :
  str_in k s = true <-> exists pre post, s = pre +:+ k +:+ post.
Proof.
  induction s as [|c s IH].
  - change (str_in k "") with (String.prefix k "" || false).
    rewrite orb_false_r, prefix_iff. split.
    + intros [post H]. by exists "", post.
    + intros [pre [post H]]. destruct pre; simpl in H; [by exists post | discriminate].
  - change (str_in k (String c s)) with (String.prefix k (String c s) || str_in k s).
    rewrite orb_true_iff, prefix_iff, IH. split.
    + intros [[post H] | [pre [post H]]].
      * by exists "", post.
      * exists (String c pre), post. simpl. by rewrite H.
    + intros [pre [post H]]. destruct pre as [|c' pre]; simpl in H.
      * left. by exists post.
      * right. injection H as -> H. by exists pre, post.
Qed.

(** ** Every request follows one path *)

Section PathFacts.
Context (host : Host).
Implicit Types (request : ExecutionRequest) (h : gmap loc (DataFrame host)).

Lemma input_loc_fresh h : h !! input_loc h = None.
Proof. apply not_elem_of_dom, is_fresh. Qed.

Lemma copy_loc_fresh h (d : DataFrame host) :
  (<[input_loc h := d]> h) !! copy_loc h d = None.
Proof. apply not_elem_of_dom, is_fresh. Qed.

Lemma copy_loc_neq_input h (d : DataFrame host) : copy_loc h d <> input_loc h.
Proof.
  intros Heq. pose proof (copy_loc_fresh h d) as Hfresh.
  rewrite Heq, lookup_insert_eq in Hfresh. discriminate.
Qed.

Lemma execute_cleaning_code_path request h :
  path host request h (execute_cleaning_code host request h).
Proof.
  cbv [execute_cleaning_code bind try_except_Exception pd_read_json
       create_execution_environment print emit raise alloc ret frame_copy
       py_exec getitem frame_to_json env_globals].
  destruct (read_json host (dataframe_json request)) as [d|e] eqn:Hread;
    cbv beta iota zeta.
  - destruct (forbidden_keyword_found (code_snippet request)) eqn:Hguard;
      cbv beta iota zeta.
    + by apply path_rejected.
    + fold (input_loc h). rewrite lookup_insert_eq.
      fold (copy_loc h d). fold (sandbox_heap h d).
      destruct (exec host (code_snippet request) (safe_globals (copy_loc h d))
                  (sandbox_heap h d)) as [[after|e] h'] eqn:Hexec;
        cbv beta iota zeta.
      * destruct (after !! "df") as [df_out|] eqn:Hdf; cbv beta iota zeta.
        -- destruct (to_json host h' df_out) as [cleaned_json|e] eqn:Hjson;
             cbv beta iota zeta.
           ++ by eapply path_succeeded.
           ++ destruct (derives_from_Exception e) eqn:Hexc.
              ** by eapply path_to_json_failed.
              ** by eapply path_to_json_escaped.
        -- by eapply path_df_missing.
      * destruct (derives_from_Exception e) eqn:Hexc.
        -- by eapply path_exec_failed.
        -- by eapply path_exec_escaped.
  - destruct (derives_from_Exception e) eqn:Hexc.
    + by apply path_malformed.
    + by apply path_read_escaped.
Qed.
End PathFacts.

(** ** What a fresh sandbox binds *)

Lemma dict_of_lookup (items : list (string * Value)) name v :
  NoDup items.*1 ->
  dict_of items !! name = Some v <-> (name, v) ∈ items.
Proof. intros Hnodup. unfold dict_of. by rewrite <- elem_of_list_to_map. Qed.

Lemma dict_of_lookup_None (items : list (string * Value)) name :
  dict_of items !! name = None <-> name ∉ items.*1.
Proof. unfold dict_of. symmetry. apply not_elem_of_list_to_map. Qed.

Ltac nodup_keys := apply (bool_decide_unpack _); vm_compute; exact I.

Lemma safe_builtins_lookup name v :
  safe_builtins !! name = Some v ->
  name ∈ safe_builtin_names /\
  (v = VBuiltin name \/ v = VBool true \/ v = VBool false \/ v = VNone).
Proof.
  unfold safe_builtins. rewrite dict_of_lookup by nodup_keys.
  unfold safe_builtin_names.
  rewrite !elem_of_cons, elem_of_nil.
  intros H. repeat destruct H as [H|H]; try done; injection H as -> ->;
    (split; [set_solver | tauto]).
Qed.

Lemma safe_builtins_dom name :
  is_Some (safe_builtins !! name) <-> name ∈ safe_builtin_names.
Proof.
  split.
  - intros [v Hv]. by apply safe_builtins_lookup in Hv as [? _].
  - unfold safe_builtin_names. rewrite !elem_of_cons, elem_of_nil.
    intros H. repeat destruct H as [H|H]; try done; subst; vm_compute; eauto.
Qed.

Lemma safe_globals_lookup df name v :
  safe_globals df !! name = Some v <->
  (name = "__builtins__" /\ v = VDict safe_builtins) \/
  (name = "pd" /\ v = VModule pandas) \/
  (name = "np" /\ v = VModule numpy) \/
  (name = "scipy" /\ v = VModule scipy) \/
  (name = "df" /\ v = VFrame df).
Proof.
  unfold safe_globals. rewrite dict_of_lookup by nodup_keys.
  rewrite !elem_of_cons, elem_of_nil. 
  split.
  - intros H. repeat destruct H as [H|H]; try done; injection H as -> ->; tauto.
  - intros H. repeat destruct H as [H|H]; destruct H as [-> ->]; tauto.
Qed.

(** ** The static keyword scan *)

Lemma forbidden_keyword_found_iff code :
  forbidden_keyword_found code = true <->
  exists pre post,
    code = pre +:+ "import " +:+ post \/ code = pre +:+ "__" +:+ post.
Proof.
  unfold forbidden_keyword_found, FORBIDDEN_KEYWORDS.
  cbn [existsb]. rewrite orb_false_r, orb_true_iff, !str_in_iff.
  split.
  - intros [(pre & post & H) | (pre & post & H)]; exists pre, post; tauto.
  - intros (pre & post & [H | H]); [left | right]; by exists pre, post.
Qed.

Lemma keyword_occurrence_found keyword pre post :
  keyword ∈ FORBIDDEN_KEYWORDS ->
  forbidden_keyword_found (pre +:+ keyword +:+ post) = true.
Proof.
  unfold FORBIDDEN_KEYWORDS. rewrite !elem_of_cons, elem_of_nil.
  intros H. apply forbidden_keyword_found_iff. exists pre, post.
  destruct H as [-> | [-> | []]]; tauto.
Qed.

Section GuardProperties.
Context (host : Host).
Implicit Types (request : ExecutionRequest) (h : gmap loc (DataFrame host)).

(** C7. Guard before execute: a request whose snippet fails the keyword
    scan never reaches [exec] (zero driver invocations) nor the sandbox
    builder, whatever its payload; and when the payload deserializes,
    what the service returns is the security-violation response. *)
Theorem guard_before_execute request h :
  forbidden_keyword_found (code_snippet request) = true ->
  driver_invocations (trace (execute_cleaning_code host request h)) = 0%nat /\
  sandbox_builds (trace (execute_cleaning_code host request h)) = 0%nat /\
  (forall d,
      read_json host (dataframe_json request) = Ok d ->
      outcome (execute_cleaning_code host request h) = Ok security_violation).
Proof.
  intros Hguard.
  destruct (execute_cleaning_code_path host request h); try congruence;
    repeat split; intros; first [reflexivity | congruence].
Qed.

(** C8. A malformed payload (one on which [pd.read_json] raises) is
    answered by raising [HTTPException] with status 400 and a message
    built from the parser's error, not by any other fault; the keyword
    scan, the sandbox builder and [exec] are not reached and the heap
    is left as it was.  The snippet plays no part, so this also
    holds when it contains a forbidden keyword. *)
Theorem malformed_payload_is_client_error request h e :
  read_json host (dataframe_json request) = Raise e ->
  derives_from_Exception e = true ->
  outcome (execute_cleaning_code host request h)
    = Raise (HTTPException 400
               ("Failed to deserialize input DataFrame: " +:+ exc_str e)) /\
  trace (execute_cleaning_code host request h)
    = [ Print "--- [Runner Service] Step 1: Deserializing DataFrame ---";
        ReadJson (dataframe_json request);
        Print ("--- [Runner Service] ERROR: Failed to read JSON: "
               +:+ exc_str e +:+ " ---") ] /\
  (Print guard_banner ∉ trace (execute_cleaning_code host request h)) /\
  sandbox_builds (trace (execute_cleaning_code host request h)) = 0%nat /\
  driver_invocations (trace (execute_cleaning_code host request h)) = 0%nat /\
  heap_after (execute_cleaning_code host request h) = h.
Proof.
  intros Hread Hexc.
  destruct (execute_cleaning_code_path host request h); try congruence.
  assert (e0 = e) as -> by congruence.
  repeat split; try reflexivity.
  cbn [trace snd]. rewrite !elem_of_cons, elem_of_nil.
  intros [Hin | [Hin | [Hin | []]]]; cbn in Hin; discriminate.
Qed.

(** C2, as the code has it.  The scan rejects every snippet in which
    the characters [import ] (the word and one space) or [__] occur:
    when the payload deserializes, the service answers such a snippet
    with the security-violation response and does not execute it. *)
Theorem static_guard_rejects_listed_keywords request h d keyword pre post :
  read_json host (dataframe_json request) = Ok d ->
  keyword ∈ FORBIDDEN_KEYWORDS ->
  code_snippet request = pre +:+ keyword +:+ post ->
  outcome (execute_cleaning_code host request h) = Ok security_violation /\
  driver_invocations (trace (execute_cleaning_code host request h)) = 0%nat.
Proof.
  intros Hread Hkw Hcode.
  assert (forbidden_keyword_found (code_snippet request) = true) as Hguard
    by (rewrite Hcode; by apply keyword_occurrence_found).
  destruct (execute_cleaning_code_path host request h); try congruence.
  by split.
Qed.

End GuardProperties.

(** C2, as stated, fails: [eval] is a dynamic-evaluation primitive the
    minimum denylist names, and a snippet calling it passes the scan. *)
Lemma eval_passes_the_static_guard :
  ~ (forall code,
        names_denylisted_pattern code = true ->
        forbidden_keyword_found code = true).
Proof.
  intros H. specialize (H "x = eval('1')" eq_refl). vm_compute in H. discriminate.
Qed.

(** C10. The scan decides by raw substring occurrence alone: it fires
    exactly when [import ] or [__] occurs somewhere in the text; every
    request with such a snippet (and a payload that deserializes) gets
    the security-violation response; and this includes an occurrence
    inside a string literal, inside a comment, or inside a longer
    identifier, in snippets that import nothing and touch no
    double-underscore attribute. *)
Theorem static_guard_is_raw_substring_scan :
  (forall code,
      forbidden_keyword_found code = true <->
      exists pre post,
        code = pre +:+ "import " +:+ post \/ code = pre +:+ "__" +:+ post) /\
  (forall host request h d,
      read_json host (dataframe_json request) = Ok d ->
      forbidden_keyword_found (code_snippet request) = true ->
      outcome (execute_cleaning_code host request h) = Ok security_violation) /\
  forbidden_keyword_found "df['note'] = 'import pending'" = true /\
  forbidden_keyword_found "df = df.dropna()  # drops the __ rows" = true /\
  forbidden_keyword_found "df_reimport = df" = true /\
  forbidden_keyword_found "df['first__last'] = 1" = true.
Proof.
  split; [apply forbidden_keyword_found_iff |].
  split.
  - intros host request h d Hread Hguard.
    destruct (execute_cleaning_code_path host request h);
      first [reflexivity | congruence].
  - by vm_compute.
Qed.

(** The scan at work on the demo host. *)
Lemma guard_before_execute_on_demo :
  driver_invocations
    (trace (execute_cleaning_code Demo.host (Demo.request "[{}]" "import os") ∅)) = 0%nat /\
  sandbox_builds
    (trace (execute_cleaning_code Demo.host (Demo.request "[{}]" "import os") ∅)) = 0%nat /\
  (forall d,
      read_json Demo.host (dataframe_json (Demo.request "[{}]" "import os")) = Ok d ->
      outcome (execute_cleaning_code Demo.host (Demo.request "[{}]" "import os") ∅)
        = Ok security_violation).
Proof.
  apply (guard_before_execute Demo.host (Demo.request "[{}]" "import os") ∅).
  reflexivity.
Defined.

Lemma malformed_payload_on_demo :
  read_json Demo.host "[{}" = Raise (Exc ValueError "Expected object or value") /\
  outcome (execute_cleaning_code Demo.host (Demo.request "[{}" "import os") ∅)
    = Raise (HTTPException 400
               "Failed to deserialize input DataFrame: Expected object or value") /\
  driver_invocations
    (trace (execute_cleaning_code Demo.host (Demo.request "[{}" "import os") ∅)) = 0%nat.
Proof.
  pose proof
    (malformed_payload_is_client_error Demo.host (Demo.request "[{}" "import os") ∅
       (Exc ValueError "Expected object or value") eq_refl eq_refl)
    as (Hout & _ & _ & _ & Hdriver & _).
  split; [reflexivity | split; [exact Hout | exact Hdriver]].
Defined.

Lemma static_guard_rejects_dunder_on_demo :
  outcome (execute_cleaning_code Demo.host
             (Demo.request "[{}]" "df.__class__") ∅) = Ok security_violation /\
  driver_invocations
    (trace (execute_cleaning_code Demo.host
              (Demo.request "[{}]" "df.__class__") ∅)) = 0%nat.
Proof.
  apply (static_guard_rejects_listed_keywords Demo.host
           (Demo.request "[{}]" "df.__class__") ∅ 1%nat "__" "df." "class__").
  - reflexivity.
  - unfold FORBIDDEN_KEYWORDS. apply list_elem_of_further, list_elem_of_here.
  - reflexivity.
Defined.

(** ** The sandbox namespace *)

Lemma resolve_safe_globals df name v :
  resolve (safe_globals df) name = Some v <->
  safe_globals df !! name = Some v \/ safe_builtins !! name = Some v.
Proof.
  unfold resolve.
  assert (safe_globals df !! "__builtins__" = Some (VDict safe_builtins)) as ->
    by (apply safe_globals_lookup; tauto).
  destruct (safe_globals df !! name) as [w|] eqn:Hname.
  - split; [tauto |]. intros [H | H]; [done |].
    apply safe_builtins_lookup in H as [Hin _].
    apply safe_globals_lookup in Hname.
    unfold safe_builtin_names in Hin. rewrite !elem_of_cons, elem_of_nil in Hin.
    exfalso. repeat destruct Hin as [Hin|Hin]; try done; subst name;
      repeat destruct Hname as [Hname|Hname]; destruct Hname; discriminate.
  - split; [tauto |]. by intros [H | H].
Qed.


(** C1, as stated, fails: the name [pd] resolves in every sandbox, to
    the whole pandas module, and through it a snippet has the
    file-reading [pd.read_json] and [pd.read_csv] that the repository
    itself calls. *)
Lemma library_handle_allows_file_access :
  ~ (forall (df : loc) name v p,
        resolve (safe_globals df) name = Some v -> ~ gives v p).
Proof.
  intros H.
  apply (H 1%positive "pd" (VModule pandas) FileSystemAccess eq_refl).
  constructor.
Qed.

(** C1, as the code has it.  The restriction is one on names.  A name
    resolves inside a fresh sandbox exactly when it is one of the
    enumerated names ([__builtins__], [df], the three library handles,
    the eighteen safe builtins); none of the names [__import__], [open],
    [eval], [exec], [compile] resolves; and the top-level bindings are
    the builtins table, whole library modules and the dataset copy. *)
Theorem sandbox_binds_enumerated_names_only (df : loc) (name : string) :
  (is_Some (resolve (safe_globals df) name) <-> name ∈ capability_names) /\
  (name ∈ excluded_builtins -> resolve (safe_globals df) name = None) /\
  (forall v,
      safe_globals df !! name = Some v ->
      v = VDict safe_builtins \/ (exists m, v = VModule m) \/ v = VFrame df).
Proof.
  assert (is_Some (resolve (safe_globals df) name) <-> name ∈ capability_names)
    as Hdom.
  { unfold capability_names, library_handle_names.
    rewrite elem_of_cons, elem_of_cons, elem_of_app, <- safe_builtins_dom.
    rewrite !elem_of_cons, elem_of_nil.
    split.
    - intros [v Hv]. apply resolve_safe_globals in Hv as [Hv | Hv].
      + apply safe_globals_lookup in Hv.
        destruct Hv as [[-> _] | [[-> _] | [[-> _] | [[-> _] | [-> _]]]]]; tauto.
      + right. right. right. by exists v.
    - intros H.
      assert (forall v, safe_globals df !! name = Some v \/ safe_builtins !! name = Some v
                        -> is_Some (resolve (safe_globals df) name)) as Hres
        by (intros v Hv; exists v; by apply resolve_safe_globals).
      destruct H as [-> | [-> | [[-> | [-> | [-> | []]]] | [v Hv]]]];
        [ apply (Hres (VDict safe_builtins)) | apply (Hres (VFrame df))
        | apply (Hres (VModule pandas)) | apply (Hres (VModule numpy))
        | apply (Hres (VModule scipy)) | apply (Hres v) ];
        first [ by right | left; apply safe_globals_lookup; tauto ]. }
  split; [exact Hdom |]. split.
  - intros Hex. destruct (resolve (safe_globals df) name) as [v|] eqn:Hv; [| done].
    exfalso. assert (name ∈ capability_names) as Hin by (apply Hdom; eauto).
    clear -Hex Hin. revert Hin.
    unfold excluded_builtins in Hex. rewrite !elem_of_cons, elem_of_nil in Hex.
    unfold capability_names, library_handle_names, safe_builtin_names. cbn [app].
    rewrite !elem_of_cons, elem_of_nil.
    intros Hin. repeat destruct Hex as [Hex|Hex]; try done; subst name;
      repeat destruct Hin as [Hin|Hin]; try done; discriminate.
  - intros v Hv. apply safe_globals_lookup in Hv.
    destruct Hv as [[_ ->] | [[_ ->] | [[_ ->] | [[_ ->] | [_ ->]]]]]; eauto.
Qed.

(** ** Execution *)

Lemma driver_invocations_to_exec {D} request (h : gmap loc D) d tail :
  forallb (fun ev => negb (is_exec ev)) tail = true ->
  driver_invocations (trace_to_exec request h d ++ tail) = 1%nat.
Proof.
  intros Htail. unfold driver_invocations, trace_to_exec.
  rewrite List.filter_app, length_app. cbn [List.filter is_exec length].
  induction tail as [|ev tail IH]; [reflexivity |].
  cbn in Htail. apply andb_true_iff in Htail as [Hev Htail].
  cbn [List.filter]. destruct (is_exec ev); [discriminate |]. by apply IH.
Qed.

Section ExecutionProperties.
Context (host : Host).
Implicit Types (request : ExecutionRequest) (h : gmap loc (DataFrame host)).

(** Once the payload has deserialized and the scan has passed, [exec]
    is called exactly once. *)
Lemma accepted_snippet_is_executed_once request h d :
  read_json host (dataframe_json request) = Ok d ->
  forbidden_keyword_found (code_snippet request) = false ->
  driver_invocations (trace (execute_cleaning_code host request h)) = 1%nat.
Proof.
  intros Hread Hguard.
  destruct (execute_cleaning_code_path host request h); try congruence;
    assert (d0 = d) as -> by congruence; cbn [trace snd];
    first [ by apply driver_invocations_to_exec
          | rewrite <- (app_nil_r (trace_to_exec _ _ _));
            by apply driver_invocations_to_exec ].
Qed.


(** C4, as the code has it.  An empty snippet is not short-circuited:
    it passes the scan and [exec] is called on it once.  Running the
    empty program leaves namespace and heap as they were, so the
    service then returns success with the serialization of the
    sandbox's dataset, which is a copy holding what the payload
    deserialized to. *)
Theorem empty_snippet_is_executed_and_returns_the_input
    request h d cleaned_json :
  code_snippet request = "" ->
  read_json host (dataframe_json request) = Ok d ->
  exec host "" (safe_globals (copy_loc h d)) (sandbox_heap h d)
    = (Ok (safe_globals (copy_loc h d)), sandbox_heap h d) ->
  to_json host (sandbox_heap h d) (VFrame (copy_loc h d)) = Ok cleaned_json ->
  driver_invocations (trace (execute_cleaning_code host request h)) = 1%nat /\
  outcome (execute_cleaning_code host request h)
    = Ok (execution_succeeded cleaned_json) /\
  heap_after (execute_cleaning_code host request h) !! copy_loc h d = Some d /\
  heap_after (execute_cleaning_code host request h) !! input_loc h = Some d.
Proof.
  intros Hcode Hread Hexec Hjson.
  assert (forbidden_keyword_found (code_snippet request) = false) as Hguard
    by (by rewrite Hcode).
  split; [by eapply accepted_snippet_is_executed_once |].
  assert (safe_globals (copy_loc h d) !! "df" = Some (VFrame (copy_loc h d)))
    as Hdf by (apply safe_globals_lookup; tauto).
  destruct (execute_cleaning_code_path host request h) as
    [ | | | d0 e h' Hr Hg Hx | d0 e h' Hr Hg Hx | d0 after h' Hr Hg Hx Hd
    | d0 after h' df_out json Hr Hg Hx Hd Hj
    | d0 after h' df_out e Hr Hg Hx Hd Hj | d0 after h' df_out e Hr Hg Hx Hd Hj ];
    try congruence;
    assert (d0 = d) as -> by congruence;
    rewrite Hcode, Hexec in Hx; injection Hx as <- <-; try congruence.
  assert (df_out = VFrame (copy_loc h d)) as -> by congruence.
  assert (json = cleaned_json) as -> by congruence.
  cbn [outcome heap_after fst snd]. split; [reflexivity |].
  unfold sandbox_heap. split.
  - apply lookup_insert_eq.
  - rewrite lookup_insert_ne by apply copy_loc_neq_input. apply lookup_insert_eq.
Qed.

End ExecutionProperties.

(** C4, as stated, fails: the driver is invoked on the empty snippet. *)
Lemma empty_snippet_reaches_the_driver :
  ~ (forall host (request : ExecutionRequest) (h : gmap loc (DataFrame host)),
        code_snippet request = "" ->
        driver_invocations (trace (execute_cleaning_code host request h)) = 0%nat).
Proof.
  intros H. specialize (H Demo.host (Demo.request "[{}]" "") ∅ eq_refl).
  vm_compute in H. discriminate.
Qed.

Lemma empty_snippet_on_demo :
  driver_invocations
    (trace (execute_cleaning_code Demo.host (Demo.request "[{}]" "") ∅)) = 1%nat /\
  outcome (execute_cleaning_code Demo.host (Demo.request "[{}]" "") ∅)
    = Ok (execution_succeeded "[{}]").
Proof.
  pose proof
    (empty_snippet_is_executed_and_returns_the_input Demo.host
       (Demo.request "[{}]" "") ∅ 1%nat "[{}]" eq_refl eq_refl eq_refl eq_refl)
    as (Hdriver & Hout & _).
  split; [exact Hdriver | exact Hout].
Defined.



(** ** What the trace of a request can contain *)

Section TraceFacts.
Context (host : Host).
Implicit Types (request : ExecutionRequest) (h : gmap loc (DataFrame host)).

Ltac trace_cases Hin :=
  cbn [trace snd] in Hin;
  unfold trace_to_exec, execution_failed_line, step4_line, step5_line in Hin;
  rewrite ?elem_of_app, ?elem_of_cons, ?elem_of_nil in Hin;
  repeat match type of Hin with
         | _ \/ _ => destruct Hin as [Hin | Hin]
         end;
  try discriminate Hin; try contradiction.

(** [exec] only ever sees the request's snippet and a fresh sandbox
    around the copy of the deserialized payload. *)
Lemma exec_event_inv request h code ns :
  Exec code ns ∈ trace (execute_cleaning_code host request h) ->
  exists d,
    read_json host (dataframe_json request) = Ok d /\
    code = code_snippet request /\
    ns = safe_globals (copy_loc h d).
Proof.
  intros Hin.
  destruct (execute_cleaning_code_path host request h);
    trace_cases Hin; injection Hin as -> ->; eauto.
Qed.

(** What is serialized is what the snippet left under [df]. *)
Lemma to_json_event_inv request h obj :
  ToJson obj ∈ trace (execute_cleaning_code host request h) ->
  exists d after,
    read_json host (dataframe_json request) = Ok d /\
    exec host (code_snippet request)
      (safe_globals (copy_loc h d)) (sandbox_heap h d)
      = (Ok after, heap_after (execute_cleaning_code host request h)) /\
    after !! "df" = Some obj.
Proof.
  intros Hin.
  destruct (execute_cleaning_code_path host request h);
    trace_cases Hin; injection Hin as ->; eauto.
Qed.

(** The heap a request leaves: untouched, the input added, or what
    [exec] left of the sandbox heap. *)
Lemma heap_after_cases request h :
  (exists e,
      read_json host (dataframe_json request) = Raise e /\
      heap_after (execute_cleaning_code host request h) = h) \/
  (exists d,
      read_json host (dataframe_json request) = Ok d /\
      heap_after (execute_cleaning_code host request h) = <[input_loc h := d]> h) \/
  (exists d r,
      read_json host (dataframe_json request) = Ok d /\
      exec host (code_snippet request)
        (safe_globals (copy_loc h d)) (sandbox_heap h d)
        = (r, heap_after (execute_cleaning_code host request h))).
Proof.
  destruct (execute_cleaning_code_path host request h); cbn [heap_after fst snd];
    eauto 10.
Qed.

(** A request whose payload deserializes and whose snippet passes the
    scan gets as far as [exec], on the sandbox around the copy, and its
    heap is the one that run of [exec] left. *)
Lemma accepted_request_trace request h d :
  read_json host (dataframe_json request) = Ok d ->
  forbidden_keyword_found (code_snippet request) = false ->
  exists r tail,
    trace (execute_cleaning_code host request h) = trace_to_exec request h d ++ tail /\
    exec host (code_snippet request) (safe_globals (copy_loc h d)) (sandbox_heap h d)
      = (r, heap_after (execute_cleaning_code host request h)).
Proof.
  intros Hread Hguard.
  destruct (execute_cleaning_code_path host request h); try congruence;
    assert (d0 = d) as -> by congruence; cbn [trace heap_after fst snd];
    first [ by eauto | eexists _, []; by rewrite app_nil_r ].
Qed.

End TraceFacts.

(** ** The capability table across executions *)

Lemma entries_agree st st' names :
  (forall name,
      name ∈ names -> Process.load_global st' name = Process.load_global st name) ->
  Process.entries st' names = Process.entries st names.
Proof.
  induction names as [|name rest IH]; intros Hagree; [reflexivity |].
  cbn [Process.entries]. rewrite Hagree by apply list_elem_of_here.
  rewrite IH; [done |]. intros n Hn. apply Hagree. by apply list_elem_of_further.
Qed.

Lemma entries_lookup st names items name :
  Process.entries st names = Ok items ->
  name ∈ names ->
  exists v, Process.load_global st name = Ok v /\
            (list_to_map items : gmap string Value) !! name = Some v.
Proof.
  revert items. induction names as [|n rest IH]; intros items Hitems Hin.
  - by apply elem_of_nil in Hin.
  - cbn [Process.entries] in Hitems.
    destruct (Process.load_global st n) as [v|e] eqn:Hn; [| discriminate].
    destruct (Process.entries st rest) as [items'|e] eqn:Hrest; [| discriminate].
    injection Hitems as <-. cbn [list_to_map foldr].
    destruct (decide (name = n)) as [-> | Hne].
    + exists v. split; [done |]. apply lookup_insert_eq.
    + apply elem_of_cons in Hin as [-> | Hin]; [done |].
      destruct (IH items' eq_refl Hin) as (w & Hw & Hlook).
      exists w. split; [done |]. by rewrite lookup_insert_ne.
Qed.

Lemma entries_keys st names items :
  Process.entries st names = Ok items -> items.*1 = names.
Proof.
  revert items. induction names as [|n rest IH]; intros items Hitems.
  - by injection Hitems as <-.
  - cbn [Process.entries] in Hitems.
    destruct (Process.load_global st n) as [v|e]; [| discriminate].
    destruct (Process.entries st rest) as [items'|e]; [| discriminate].
    injection Hitems as <-. cbn. f_equal. by apply IH.
Qed.

Lemma capability_table_display table handles (df : loc) :
  "df" ∉ handles.*1 ->
  capability_table
    (dict_of (("__builtins__", VDict table) :: handles ++ [ ("df", VFrame df) ]))
  = dict_of (("__builtins__", VDict table) :: handles).
Proof.
  intros Hdf. unfold capability_table, dict_of. cbn [list_to_map foldr].
  rewrite delete_insert_ne by done. f_equal.
  rewrite list_to_map_app. cbn [list_to_map foldr].
  rewrite insert_empty.
  apply map_eq. intros k. destruct (decide (k = "df")) as [-> | Hne].
  - rewrite lookup_delete_eq. symmetry. by apply not_elem_of_list_to_map_1.
  - rewrite lookup_delete_ne by done. rewrite lookup_union.
    rewrite lookup_singleton_ne by done.
    by destruct (list_to_map handles !! k).
Qed.

Lemma safe_globals_table st df ns :
  Process.safe_globals st df = Ok ns ->
  exists table handles,
    Process.safe_builtins st = Ok table /\
    Process.entries st library_handle_names = Ok handles /\
    capability_table ns = dict_of (("__builtins__", VDict table) :: handles).
Proof.
  unfold Process.safe_globals. intros Hns.
  destruct (Process.safe_builtins st) as [table|e]; [| discriminate].
  destruct (Process.entries st library_handle_names) as [handles|e] eqn:Hh;
    [| discriminate].
  injection Hns as <-. exists table, handles. repeat split.
  apply capability_table_display.
  rewrite (entries_keys _ _ _ Hh). unfold library_handle_names.
  rewrite !elem_of_cons, elem_of_nil. intros [H | [H | [H | []]]]; discriminate.
Qed.

Lemma safe_builtins_functions st table name :
  Process.safe_builtins st = Ok table ->
  name ∈ Process.builtin_function_names ->
  exists v, Process.load_global st name = Ok v /\ table !! name = Some v.
Proof.
  unfold Process.safe_builtins. intros Htable Hin.
  destruct (Process.entries st Process.builtin_function_names) as [functions|e] eqn:Hf;
    [| discriminate].
  injection Htable as <-.
  destruct (entries_lookup _ _ _ _ Hf Hin) as (v & Hv & Hlook).
  exists v. split; [done |].
  unfold dict_of. rewrite list_to_map_app. by apply lookup_union_Some_l.
Qed.

(** In the process as the imports leave it, the builder gives the
    sandbox of the handler. *)
Lemma safe_globals_at_import df :
  Process.safe_globals Process.at_import df = Ok (safe_globals df).
Proof. vm_compute. reflexivity. Qed.

(** C6, as the code has it.  Each sandbox is built anew from the global
    names the builder reads, as the process binds them at that moment.
    For two requests served one after the other, the bindings other
    than the dataset in the second sandbox are those of the first
    exactly when the first execution left every one of these names bound
    as it was; what the first snippet did to its own namespace plays no
    part.  In the process as the imports leave it, the sandbox is the
    one the handler is given. *)
Theorem capability_table_is_the_same_for_every_execution
    (python : Process.Interpreter) (st : Process.ModuleState)
    (code : string) (df1 df2 : loc) (first second : Namespace) :
  Process.consecutive_sandboxes python st code df1 df2 = Ok (first, second) ->
  Process.safe_globals st df1 = Ok first /\
  Process.safe_globals (Process.exec python code first st).2 df2 = Ok second /\
  (capability_table second = capability_table first <->
   forall name,
     name ∈ Process.names_read ->
     Process.load_global (Process.exec python code first st).2 name
       = Process.load_global st name) /\
  (forall df, Process.safe_globals Process.at_import df = Ok (safe_globals df)).
Proof.
  unfold Process.consecutive_sandboxes. intros Hrun.
  destruct (Process.safe_globals st df1) as [ns1|e] eqn:Hfirst; [| discriminate].
  destruct (Process.safe_globals (Process.exec python code ns1 st).2 df2)
    as [ns2|e] eqn:Hsecond; [| discriminate].
  injection Hrun as -> ->. rewrite Hsecond.
  split; [reflexivity |]. split; [reflexivity |].
  split; [| apply safe_globals_at_import].
  set (st' := (Process.exec python code first st).2) in *.
  destruct (safe_globals_table _ _ _ Hfirst) as (t1 & h1 & Ht1 & Hh1 & ->).
  destruct (safe_globals_table _ _ _ Hsecond) as (t2 & h2 & Ht2 & Hh2 & ->).
  split.
  - intros Heq name Hin. unfold Process.names_read in Hin.
    apply elem_of_app in Hin as [Hin | Hin].
    + assert (t2 = t1) as ->.
      { apply (f_equal (fun m : Namespace => m !! "__builtins__")) in Heq.
        unfold dict_of in Heq. cbn [list_to_map foldr] in Heq.
        rewrite !lookup_insert_eq in Heq. by injection Heq. }
      destruct (safe_builtins_functions _ _ _ Ht1 Hin) as (v1 & -> & Hv1).
      destruct (safe_builtins_functions _ _ _ Ht2 Hin) as (v2 & -> & Hv2).
      congruence.
    + assert (name <> "__builtins__") as Hne.
      { intros ->. unfold library_handle_names in Hin.
        rewrite !elem_of_cons, elem_of_nil in Hin.
        destruct Hin as [H | [H | [H | []]]]; discriminate. }
      apply (f_equal (fun m : Namespace => m !! name)) in Heq.
      unfold dict_of in Heq. cbn [list_to_map foldr] in Heq.
      rewrite !lookup_insert_ne in Heq by done.
      destruct (entries_lookup _ _ _ _ Hh1 Hin) as (v1 & -> & Hv1).
      destruct (entries_lookup _ _ _ _ Hh2 Hin) as (v2 & -> & Hv2).
      congruence.
  - intros Hagree.
    assert (Process.entries st' Process.builtin_function_names
            = Process.entries st Process.builtin_function_names) as Hf.
    { apply entries_agree. intros name Hin. apply Hagree.
      unfold Process.names_read. apply elem_of_app. by left. }
    assert (Process.entries st' library_handle_names
            = Process.entries st library_handle_names) as Hh.
    { apply entries_agree. intros name Hin. apply Hagree.
      unfold Process.names_read. apply elem_of_app. by right. }
    unfold Process.safe_builtins in Ht1, Ht2. rewrite Hf in Ht2.
    congruence.
Qed.

(** C6, as stated, fails: the table is not read-only.  A snippet that
    rebinds the builtin [round] leaves a process in which the next
    sandbox binds [round] to another function. *)
Lemma snippet_can_rebind_a_builtin :
  ~ (forall (python : Process.Interpreter) (st : Process.ModuleState)
            (code : string) (df1 df2 : loc) (first second : Namespace),
        Process.consecutive_sandboxes python st code df1 df2 = Ok (first, second) ->
        capability_table second = capability_table first).
Proof.
  intros H.
  specialize (H Rebinding.python Process.at_import
                "pd.io.common.os.sys.modules['builtins'].round = abs"
                2%positive 4%positive _ _ eq_refl).
  apply (f_equal (fun ns => resolve ns "round")) in H.
  vm_compute in H. discriminate.
Qed.

(** ** The dataset copy *)

Lemma safe_builtins_reach_nothing name v l :
  safe_builtins !! name = Some v -> ~ value_reaches v l.
Proof.
  intros Hv Hreach. apply safe_builtins_lookup in Hv as [_ Hv].
  destruct Hv as [-> | [-> | [-> | ->]]]; inversion Hreach.
Qed.

(** A fresh sandbox reaches its own dataset copy and no other frame. *)
Lemma reaches_safe_globals (df l : loc) :
  reaches (safe_globals df) l <-> l = df.
Proof.
  split.
  - intros (name & v & Hv & Hreach). apply safe_globals_lookup in Hv.
    destruct Hv as [[_ ->] | [[_ ->] | [[_ ->] | [[_ ->] | [_ ->]]]]];
      inversion Hreach; subst; try done.
    exfalso. eapply safe_builtins_reach_nothing; eauto.
  - intros ->. exists "df", (VFrame df). split; [| constructor].
    apply safe_globals_lookup. tauto.
Qed.

Section CopyFacts.
Context {D : Type}.
Implicit Types (h : gmap loc D) (d : D).

Lemma sandbox_heap_input h d : sandbox_heap h d !! input_loc h = Some d.
Proof.
  unfold sandbox_heap.
  rewrite lookup_insert_ne; [apply lookup_insert_eq |].
  intros Heq. pose proof (is_fresh (dom (<[input_loc h := d]> h))) as Hfresh.
  fold (copy_loc h d) in Hfresh. rewrite Heq in Hfresh.
  apply Hfresh, elem_of_dom. rewrite lookup_insert_eq. eauto.
Qed.

Lemma sandbox_heap_old h d l :
  is_Some (h !! l) ->
  sandbox_heap h d !! l = h !! l /\ l <> input_loc h /\ l <> copy_loc h d.
Proof.
  intros Hl.
  assert (l <> input_loc h) as Hin.
  { intros ->. apply (is_fresh (dom h)). by apply elem_of_dom. }
  assert (l <> copy_loc h d) as Hcopy.
  { intros ->. apply (is_fresh (dom (<[input_loc h := d]> h))).
    apply elem_of_dom. by rewrite lookup_insert_ne. }
  unfold sandbox_heap. by rewrite !lookup_insert_ne.
Qed.

Lemma sandbox_heap_None h d l :
  sandbox_heap h d !! l = None -> l <> input_loc h /\ h !! l = None.
Proof.
  intros Hnone. split.
  - intros ->. by rewrite sandbox_heap_input in Hnone.
  - destruct (h !! l) as [x|] eqn:Hl; [| done].
    destruct (sandbox_heap_old h d l) as [Heq _]; [eauto |]. congruence.
Qed.

Lemma copy_loc_new h d : copy_loc h d <> input_loc h /\ h !! copy_loc h d = None.
Proof.
  assert (copy_loc h d <> input_loc h) as Hne.
  { intros Heq. apply (is_fresh (dom (<[input_loc h := d]> h))).
    fold (copy_loc h d). rewrite Heq. apply elem_of_dom.
    rewrite lookup_insert_eq. eauto. }
  split; [done |].
  destruct (h !! copy_loc h d) as [x|] eqn:Hl; [| done].
  destruct (sandbox_heap_old h d (copy_loc h d)) as (_ & _ & Hcontra); eauto.
  done.
Qed.

End CopyFacts.

Section CopyProperties.
Context (host : Host).
Implicit Types (request : ExecutionRequest) (h : gmap loc (DataFrame host)).

(** C9, as the code has it.  For a request that gets as far as [exec]:
    the builder copies the deserialized input into a new object and
    binds [df] to it; when [exec] starts, copy and input are two objects
    holding the same data, the copy is none of the objects that existed
    before, those are as they were, and the copy is the only DataFrame
    the sandbox reaches.  When the run of the snippet is confined, the
    input still holds what was deserialized after the request, every
    earlier object is unchanged, and the object returned for
    serialization is neither the input nor an earlier object, so writing
    to it afterwards changes none of them. *)
Theorem execution_works_on_an_independent_copy request h d :
  read_json host (dataframe_json request) = Ok d ->
  forbidden_keyword_found (code_snippet request) = false ->
  exists r tail,
    trace (execute_cleaning_code host request h) = trace_to_exec request h d ++ tail /\
    exec host (code_snippet request) (safe_globals (copy_loc h d)) (sandbox_heap h d)
      = (r, heap_after (execute_cleaning_code host request h)) /\
    FrameCopy (input_loc h) (copy_loc h d) ∈ trace_to_exec request h d /\
    Exec (code_snippet request) (safe_globals (copy_loc h d))
      ∈ trace_to_exec request h d /\
    safe_globals (copy_loc h d) !! "df" = Some (VFrame (copy_loc h d)) /\
    (forall l, reaches (safe_globals (copy_loc h d)) l <-> l = copy_loc h d) /\
    copy_loc h d <> input_loc h /\
    h !! copy_loc h d = None /\
    h !! input_loc h = None /\
    sandbox_heap h d !! copy_loc h d = Some d /\
    sandbox_heap h d !! input_loc h = Some d /\
    (forall l, is_Some (h !! l) -> sandbox_heap h d !! l = h !! l) /\
    (confined (safe_globals (copy_loc h d)) (sandbox_heap h d) r
       (heap_after (execute_cleaning_code host request h)) ->
     heap_after (execute_cleaning_code host request h) !! input_loc h = Some d /\
     (forall l,
         is_Some (h !! l) ->
         heap_after (execute_cleaning_code host request h) !! l = h !! l) /\
     (forall obj l,
         ToJson obj ∈ trace (execute_cleaning_code host request h) ->
         value_reaches obj l ->
         l <> input_loc h /\ h !! l = None /\
         forall d' l0,
           l0 = input_loc h \/ is_Some (h !! l0) ->
           <[l := d']> (heap_after (execute_cleaning_code host request h)) !! l0
             = heap_after (execute_cleaning_code host request h) !! l0)).
Proof.
  intros Hread Hguard.
  destruct (accepted_request_trace host request h d Hread Hguard)
    as (r & tail & Htrace & Hexec).
  exists r, tail.
  destruct (copy_loc_new h d) as [Hne Hnew].
  split; [exact Htrace |]. split; [exact Hexec |].
  split; [unfold trace_to_exec; rewrite !elem_of_cons; tauto |].
  split; [unfold trace_to_exec; rewrite !elem_of_cons; tauto |].
  split; [apply safe_globals_lookup; tauto |].
  split; [apply reaches_safe_globals |].
  split; [exact Hne |]. split; [exact Hnew |].
  split; [apply input_loc_fresh |].
  split; [unfold sandbox_heap; apply lookup_insert_eq |].
  split; [apply sandbox_heap_input |].
  split; [intros l Hl; by apply sandbox_heap_old |].
  intros [Hkeep Hleft].
  assert (heap_after (execute_cleaning_code host request h) !! input_loc h = Some d)
    as Hinput.
  { rewrite Hkeep; [apply sandbox_heap_input | rewrite sandbox_heap_input; eauto |].
    by intros Hcontra%reaches_safe_globals. }
  split; [exact Hinput |]. split.
  - intros l Hl. destruct (sandbox_heap_old h d l Hl) as (Hold & _ & Hcopy).
    rewrite Hkeep; [done | by rewrite Hold |].
    by intros ->%reaches_safe_globals.
  - intros obj l Hin Hreach.
    assert (l <> input_loc h /\ h !! l = None) as [Hl Hnone].
    { apply to_json_event_inv in Hin as (d' & after & Hread' & Hexec' & Hdf).
      assert (d' = d) as -> by congruence.
      assert (r = Ok after) as -> by congruence.
      destruct (Hleft after l eq_refl) as [->%reaches_safe_globals | Hnone].
      - by exists "df", obj.
      - done.
      - by apply sandbox_heap_None in Hnone. }
    split; [done | split; [done |]].
    intros d' l0 [-> | Hl0].
    + by rewrite lookup_insert_ne.
    + rewrite lookup_insert_ne; [done |]. intros ->.
      rewrite Hnone in Hl0. by destruct Hl0.
Qed.

End CopyProperties.

(** C9, as stated, fails: nothing keeps a snippet to its copy.  One
    that takes [df_in] from the handler's frame leaves [df] bound to the
    input itself, and that object is what the handler serializes. *)
Lemma snippet_can_return_the_input_itself :
  ~ (forall (host : Host) (request : ExecutionRequest)
            (h : gmap loc (DataFrame host)) obj l,
        ToJson obj ∈ trace (execute_cleaning_code host request h) ->
        value_reaches obj l -> l <> input_loc h).
Proof.
  intros H.
  apply (H Aliasing.host
           (Demo.request "[{}]"
              "df = pd.io.common.os.sys._getframe(1).f_locals['df_in']")
           ∅ (VFrame 1%positive) 1%positive).
  - apply list_elem_of_In. vm_compute. tauto.
  - constructor.
  - reflexivity.
Qed.

(** ** The snippets of the demo host are confined *)

Lemma reaches_delete (ns : Namespace) name l :
  reaches (delete name ns) l -> reaches ns l.
Proof.
  intros (k & v & Hv & Hreach). apply lookup_delete_Some in Hv as [_ Hv].
  by exists k, v.
Qed.

Lemma reaches_insert (ns : Namespace) name w l :
  reaches (<[name := w]> ns) l -> value_reaches w l \/ reaches ns l.
Proof.
  intros (k & v & Hv & Hreach).
  apply lookup_insert_Some in Hv as [[_ <-] | [_ Hv]]; [by left |].
  right. by exists k, v.
Qed.

Lemma demo_exec_confined code ns (h : gmap loc nat) r h' :
  Demo.demo_exec code ns h = (r, h') -> confined ns h r h'.
Proof.
  intros Hexec. unfold Demo.demo_exec in Hexec.
  assert (forall l : loc, is_Some (h !! l) ->
            <[fresh (dom h) := 0%nat]> h !! l = h !! l) as Hfresh.
  { intros l Hl. rewrite lookup_insert_ne; [done |].
    intros <-. apply (is_fresh (dom h)). by apply elem_of_dom. }
  repeat case_bool_decide; injection Hexec as <- <-;
    (split; [intros l Hl _; first [done | by apply Hfresh] |]);
    intros ns' l Hr Hreach; try discriminate Hr; injection Hr as <-.
  - by left.
  - left. by eapply reaches_delete.
  - apply reaches_insert in Hreach as [Hreach | Hreach]; [inversion Hreach | by left].
  - apply reaches_insert in Hreach as [Hreach | Hreach]; [inversion Hreach | by left].
  - apply reaches_insert in Hreach as [Hreach | Hreach]; [| by left].
    inversion Hreach; subst. right. apply not_elem_of_dom, is_fresh.
Qed.

(** A snippet that rebinds [pd] in its own namespace, followed by a
    second request: both sandboxes carry the same table. *)
Lemma capability_table_on_demo :
  capability_table (safe_globals 4%positive) = capability_table (safe_globals 2%positive).
Proof.
  destruct (capability_table_is_the_same_for_every_execution
              Rebinding.python Process.at_import "pd = None"
              2%positive 4%positive (safe_globals 2%positive) (safe_globals 4%positive)
              eq_refl)
    as (_ & _ & Hiff & _).
  apply Hiff. reflexivity.
Defined.

(** A snippet that replaces [df] by a new frame: the deserialized input
    at location 1 keeps its one row. *)
Lemma independent_copy_on_demo :
  heap_after (execute_cleaning_code Demo.host
                (Demo.request "[{}]" "df = df.iloc[0:0]") ∅) !! 1%positive
    = Some 1%nat.
Proof.
  destruct (execution_works_on_an_independent_copy Demo.host
              (Demo.request "[{}]" "df = df.iloc[0:0]") ∅ 1%nat eq_refl eq_refl)
    as (r & tail & _ & Hexec & _ & _ & _ & _ & _ & _ & _ & _ & _ & _ & Hconfined).
  apply Hconfined. by apply (demo_exec_confined _ _ _ _ _ Hexec).
Defined.

(** * Further properties of the handler *)

Section HandlerProperties.
Context (host : Host).
Implicit Types (request : ExecutionRequest) (h : gmap loc (DataFrame host)).

(** The three responses the handler builds. *)
Lemma returned_response_cases request h response :
  outcome (execute_cleaning_code host request h) = Ok response ->
  response = security_violation \/
  (exists e, response = execution_failed e) \/
  (exists cleaned_json, response = execution_succeeded cleaned_json).
Proof.
  intros Hout.
  destruct (execute_cleaning_code_path host request h);
    unfold outcome in Hout; cbn [fst] in Hout;
    first [ discriminate Hout | injection Hout as <- ].
  - by left.
  - right. left. by eexists.
  - right. left. by eexists.
  - right. right. by eexists.
  - right. left. by eexists.
Qed.

(** X1. Whatever response the handler returns has one of two shapes:
    success with no error message (the dataset being what [to_json]
    returned), or failure with an error message and no dataset. *)
Theorem response_has_dataset_or_error request h response :
  outcome (execute_cleaning_code host request h) = Ok response ->
  (success response = true /\ error_message response = None) \/
  (success response = false /\
   cleaned_dataframe_json response = None /\
   is_Some (error_message response)).
Proof.
  intros [-> | [[e ->] | [cleaned_json ->]]]%returned_response_cases.
  - right. repeat split. by eexists.
  - right. repeat split. by eexists.
  - left. by split.
Qed.

(** X2. Every request calls the parser exactly once, also when its
    snippet is forbidden; it builds at most one sandbox and calls [exec]
    at most once, and never without a sandbox built before the call; it
    serializes at most once, and never without a call of [exec] before
    the serialization. *)
Theorem calls_per_request request h :
  parser_calls (trace (execute_cleaning_code host request h)) = 1%nat /\
  (driver_invocations (trace (execute_cleaning_code host request h))
     <= sandbox_builds (trace (execute_cleaning_code host request h)))%nat /\
  (sandbox_builds (trace (execute_cleaning_code host request h)) <= 1)%nat /\
  (serializer_calls (trace (execute_cleaning_code host request h))
     <= driver_invocations (trace (execute_cleaning_code host request h)))%nat /\
  (forall code ns,
      Exec code ns ∈ trace (execute_cleaning_code host request h) ->
      exists before after src dst,
        trace (execute_cleaning_code host request h)
          = before ++ Exec code ns :: after /\
        FrameCopy src dst ∈ before) /\
  (forall obj,
      ToJson obj ∈ trace (execute_cleaning_code host request h) ->
      exists before after code ns,
        trace (execute_cleaning_code host request h)
          = before ++ ToJson obj :: after /\
        Exec code ns ∈ before).
Proof.
  split; [| split; [| split; [| split; [| split]]]].
  1-4: destruct (execute_cleaning_code_path host request h);
    cbn [trace snd]; unfold parser_calls, sandbox_builds, driver_invocations,
      serializer_calls, trace_to_exec, execution_failed_line, step4_line, step5_line;
    cbn [app List.filter is_read_json is_frame_copy is_exec is_to_json length]; lia.
  - intros code ns Hin.
    destruct (exec_event_inv host request h code ns Hin) as (d & Hread & -> & ->).
    destruct (forbidden_keyword_found (code_snippet request)) eqn:Hguard.
    + exfalso.
      destruct (execute_cleaning_code_path host request h); try congruence.
      cbn [trace snd] in Hin. rewrite !elem_of_cons, elem_of_nil in Hin.
      repeat destruct Hin as [Hin | Hin]; try discriminate Hin; done.
    + destruct (accepted_request_trace host request h d Hread Hguard)
        as (r & tail & -> & _).
      eexists (take 6 (trace_to_exec request h d)), tail,
        (input_loc h), (copy_loc h d).
      split; [reflexivity |].
      cbn [take trace_to_exec]. rewrite !elem_of_cons. tauto.
  - intros obj Hin.
    destruct (to_json_event_inv host request h obj Hin) as (d & after & Hread & _ & _).
    destruct (execute_cleaning_code_path host request h) as
      [ | | | d0 e h' Hr Hg Hx He | d0 e h' Hr Hg Hx He | d0 after0 h' Hr Hg Hx Hd
      | d0 after0 h' df_out json Hr Hg Hx Hd Hj
      | d0 after0 h' df_out e Hr Hg Hx Hd Hj He
      | d0 after0 h' df_out e Hr Hg Hx Hd Hj He ];
      cbn [trace snd] in Hin |- *;
      unfold trace_to_exec, execution_failed_line, step4_line, step5_line in Hin;
      rewrite ?elem_of_app, ?elem_of_cons, ?elem_of_nil in Hin;
      repeat match type of Hin with
             | _ \/ _ => destruct Hin as [Hin | Hin]
             end;
      try discriminate Hin; try contradiction; injection Hin as ->.
    + exists (trace_to_exec request h d0 ++ [step4_line; step5_line]), [],
        (code_snippet request), (safe_globals (copy_loc h d0)).
      split; [by rewrite <- app_assoc |].
      unfold trace_to_exec. rewrite elem_of_app, !elem_of_cons. tauto.
    + exists (trace_to_exec request h d0 ++ [step4_line; step5_line]),
        [execution_failed_line e],
        (code_snippet request), (safe_globals (copy_loc h d0)).
      split; [by rewrite <- app_assoc |].
      unfold trace_to_exec. rewrite elem_of_app, !elem_of_cons. tauto.
    + exists (trace_to_exec request h d0 ++ [step4_line; step5_line]), [],
        (code_snippet request), (safe_globals (copy_loc h d0)).
      split; [by rewrite <- app_assoc |].
      unfold trace_to_exec. rewrite elem_of_app, !elem_of_cons. tauto.
Qed.


(** X4. The handler reports success with a dataset exactly when the
    payload deserialized, the snippet passed the scan, [exec] returned,
    the namespace it left still binds [df], and serializing that object
    gave the dataset returned. *)
Theorem success_exactly_when_all_stages_pass request h cleaned_json :
  outcome (execute_cleaning_code host request h)
    = Ok (execution_succeeded cleaned_json) <->
  exists d after df_out,
    read_json host (dataframe_json request) = Ok d /\
    forbidden_keyword_found (code_snippet request) = false /\
    exec host (code_snippet request)
      (safe_globals (copy_loc h d)) (sandbox_heap h d)
      = (Ok after, heap_after (execute_cleaning_code host request h)) /\
    after !! "df" = Some df_out /\
    to_json host (heap_after (execute_cleaning_code host request h)) df_out
      = Ok cleaned_json.
Proof.
  split.
  - intros Hout.
    destruct (execute_cleaning_code_path host request h);
      unfold outcome, heap_after in *; cbn [fst snd] in *; try discriminate Hout.
    injection Hout as ->. by repeat eexists.
  - intros (d & after & df_out & Hread & Hguard & Hexec & Hdf & Hjson).
    destruct (execute_cleaning_code_path host request h);
      unfold outcome, heap_after in *; cbn [fst snd] in *; congruence.
Qed.

(** X5. A snippet that leaves no [df] behind (it deleted the binding)
    is answered with the failure response whose message is the text of
    the KeyError, and nothing is serialized. *)
Theorem deleted_dataset_is_a_failure request h d after h' :
  read_json host (dataframe_json request) = Ok d ->
  forbidden_keyword_found (code_snippet request) = false ->
  exec host (code_snippet request)
    (safe_globals (copy_loc h d)) (sandbox_heap h d) = (Ok after, h') ->
  after !! "df" = None ->
  outcome (execute_cleaning_code host request h)
    = Ok {| cleaned_dataframe_json := None;
            success := false;
            error_message := Some "'df'" |} /\
  serializer_calls (trace (execute_cleaning_code host request h)) = 0%nat.
Proof.
  intros Hread Hguard Hexec Hdf.
  destruct (execute_cleaning_code_path host request h); try congruence;
    assert (d0 = d) as -> by congruence;
    assert (after0 = after) as -> by congruence; try congruence.
  by split.
Qed.


(** X7. [except Exception] does not catch what is no [Exception]: when
    [exec] raises a KeyboardInterrupt, SystemExit or GeneratorExit, the
    handler raises that same exception, prints no error line and
    returns no response. *)
Theorem base_exceptions_leave_the_handler request h d e h' :
  read_json host (dataframe_json request) = Ok d ->
  forbidden_keyword_found (code_snippet request) = false ->
  exec host (code_snippet request)
    (safe_globals (copy_loc h d)) (sandbox_heap h d) = (Raise e, h') ->
  derives_from_Exception e = false ->
  outcome (execute_cleaning_code host request h) = Raise e /\
  trace (execute_cleaning_code host request h) = trace_to_exec request h d.
Proof.
  intros Hread Hguard Hexec Hexc.
  destruct (execute_cleaning_code_path host request h); try congruence;
    assert (d0 = d) as -> by congruence; try congruence.
  assert (e0 = e) as -> by congruence. by split.
Qed.

End HandlerProperties.

Lemma response_shape_on_demo :
  success (execution_failed (Exc KeyError "'df'")) = false /\
  cleaned_dataframe_json (execution_failed (Exc KeyError "'df'")) = None /\
  is_Some (error_message (execution_failed (Exc KeyError "'df'"))).
Proof.
  assert (outcome (execute_cleaning_code Demo.host (Demo.request "[{}]" "del df") ∅)
          = Ok (execution_failed (Exc KeyError "'df'"))) as Hrun
    by (vm_compute; reflexivity).
  destruct (response_has_dataset_or_error Demo.host
              (Demo.request "[{}]" "del df") ∅
              (execution_failed (Exc KeyError "'df'")) Hrun)
    as [(Hs & _) | Hfailure].
  - discriminate Hs.
  - exact Hfailure.
Defined.

Lemma deleted_dataset_on_demo :
  outcome (execute_cleaning_code Demo.host (Demo.request "[{}]" "del df") ∅)
    = Ok {| cleaned_dataframe_json := None;
            success := false;
            error_message := Some "'df'" |} /\
  serializer_calls
    (trace (execute_cleaning_code Demo.host (Demo.request "[{}]" "del df") ∅)) = 0%nat.
Proof.
  apply (deleted_dataset_is_a_failure Demo.host (Demo.request "[{}]" "del df") ∅
           1%nat (delete "df" (safe_globals 2%positive))
           (sandbox_heap (∅ : gmap loc nat) 1%nat));
    reflexivity.
Defined.


Lemma interrupt_leaves_the_handler :
  outcome (execute_cleaning_code Interrupted.host
             (Demo.request "[{}]" "df = df.dropna()") ∅)
    = Raise (Exc KeyboardInterrupt "").
Proof.
  apply (base_exceptions_leave_the_handler Interrupted.host
           (Demo.request "[{}]" "df = df.dropna()") ∅ 1%nat
           (Exc KeyboardInterrupt "") (sandbox_heap (∅ : gmap loc nat) 1%nat));
    reflexivity.
Defined.

(** * The scan and the composition of steps *)

Lemma append_assoc (a b c : string) : (a +:+ b) +:+ c = a +:+ b +:+ c.
Proof.
  induction a as [|x a IH]; [reflexivity |].
  change (String x ((a +:+ b) +:+ c) = String x (a +:+ b +:+ c)). by f_equal.
Qed.

(** X8. The scan is closed under context: whatever is put before or
    after a rejected snippet, the result is rejected too. *)
Theorem rejected_snippet_stays_rejected_in_context code pre post :
  forbidden_keyword_found code = true ->
  forbidden_keyword_found (pre +:+ code +:+ post) = true.
Proof.
  intros (p & q & H)%forbidden_keyword_found_iff.
  apply forbidden_keyword_found_iff. exists (pre +:+ p), (q +:+ post).
  destruct H as [-> | ->]; [left | right]; by rewrite !append_assoc.
Qed.

Lemma rejected_in_context_on_demo :
  forbidden_keyword_found ("df = df.dropna()" +:+ "import os" +:+ "; x = 1") = true.
Proof.
  apply (rejected_snippet_stays_rejected_in_context "import os"
           "df = df.dropna()" "; x = 1").
  reflexivity.
Defined.

Lemma prefix_cons c k x s :
  String.prefix (String c k) (String x s)
    = if Ascii.ascii_dec c x then String.prefix k s else false.
Proof. reflexivity. Qed.

Lemma has_newline_cons c k :
  has_newline (String c k) = false ->
  c <> Ascii.ascii_of_nat 10 /\ has_newline k = false.
Proof.
  unfold has_newline, newline.
  change (str_in (String (Ascii.ascii_of_nat 10) "") (String c k))
    with (String.prefix (String (Ascii.ascii_of_nat 10) "") (String c k)
          || str_in (String (Ascii.ascii_of_nat 10) "") k).
  intros [Hp Hk]%orb_false_iff. split; [| exact Hk].
  intros ->. rewrite prefix_cons in Hp.
  destruct (Ascii.ascii_dec _ _) as [|Hne]; [| by apply Hne].
  by destruct k.
Qed.

Lemma prefix_across_newline k a b :
  has_newline k = false ->
  String.prefix k (a +:+ newline +:+ b) = String.prefix k a.
Proof.
  revert a. induction k as [|c k IH]; intros a Hk.
  - by destruct a.
  - apply has_newline_cons in Hk as [Hc Hk].
    destruct a as [|x a].
    + change ("" +:+ newline +:+ b) with (String (Ascii.ascii_of_nat 10) b).
      rewrite prefix_cons.
      destruct (Ascii.ascii_dec c (Ascii.ascii_of_nat 10)) as [Heq |];
        [exfalso; exact (Hc Heq) | done].
    + change (String x a +:+ newline +:+ b) with (String x (a +:+ newline +:+ b)).
      rewrite !prefix_cons. destruct (Ascii.ascii_dec c x); [by apply IH | done].
Qed.

Lemma str_in_across_newline k a b :
  has_newline k = false ->
  str_in k (a +:+ newline +:+ b) = str_in k a || str_in k b.
Proof.
  intros Hk. induction a as [|x a IH].
  - change (str_in k ("" +:+ newline +:+ b))
      with (String.prefix k ("" +:+ newline +:+ b) || str_in k b).
    rewrite prefix_across_newline by done.
    change (str_in k "") with (String.prefix k "" || false).
    by rewrite orb_false_r.
  - change (str_in k (String x a +:+ newline +:+ b))
      with (String.prefix k (String x a +:+ newline +:+ b)
            || str_in k (a +:+ newline +:+ b)).
    rewrite prefix_across_newline, IH by done.
    change (str_in k (String x a)) with (String.prefix k (String x a) || str_in k a).
    by rewrite orb_assoc.
Qed.

Lemma str_in_join k parts :
  k <> "" ->
  has_newline k = false ->
  str_in k (join newline parts) = existsb (str_in k) parts.
Proof.
  intros Hne Hk. induction parts as [|part rest IH].
  - destruct k; [done | by destruct k].
  - destruct rest as [|next rest].
    + cbn [join existsb]. by rewrite orb_false_r.
    + change (join newline (part :: next :: rest))
        with (part +:+ newline +:+ join newline (next :: rest)).
      rewrite str_in_across_newline, IH by done. reflexivity.
Qed.

Lemma forbidden_keyword_found_join parts :
  forbidden_keyword_found (join newline parts)
    = existsb forbidden_keyword_found parts.
Proof.
  unfold forbidden_keyword_found, FORBIDDEN_KEYWORDS. cbn [existsb].
  rewrite !str_in_join by done.
  induction parts as [|part rest IH]; [reflexivity |].
  cbn [existsb]. rewrite !orb_false_r in *. rewrite <- IH.
  destruct (str_in "import " part), (str_in "__" part),
    (existsb (str_in "import ") rest), (existsb (str_in "__") rest); reflexivity.
Qed.

Lemma compose_code_scan (selected : list AiEngine.CleaningStep) :
  forbidden_keyword_found (compose_code selected)
    = existsb (fun step => forbidden_keyword_found (AiEngine.code_snippet step))
              selected.
Proof.
  unfold compose_code. rewrite forbidden_keyword_found_join.
  induction selected as [|step rest IH]; [reflexivity |].
  cbn [List.map existsb]. by rewrite IH.
Qed.

Lemma existsb_elem_of {A} (f : A -> bool) (l : list A) :
  existsb f l = true <-> exists x, x ∈ l /\ f x = true.
Proof.
  rewrite existsb_exists. split; intros (x & Hin & Hx); exists x;
    (split; [by apply list_elem_of_In | done]).
Qed.

(** X9. Joining the approved steps by line feeds neither hides nor
    creates a forbidden keyword: the composed code is rejected by the
    scan exactly when one of the steps, taken alone, is. *)
Theorem composed_code_is_rejected_iff_a_step_is
    (selected : list AiEngine.CleaningStep) :
  forbidden_keyword_found (compose_code selected) = true <->
  exists step,
    step ∈ selected /\
    forbidden_keyword_found (AiEngine.code_snippet step) = true.
Proof. rewrite compose_code_scan. apply existsb_elem_of. Qed.

(** X10. An approved batch is all or nothing: if one selected step
    contains a forbidden keyword, the request the application posts is
    answered with the security-violation response and [exec] is never
    called, so the other steps do not run either; if no step does, the
    composed code reaches [exec] exactly once. *)
Theorem one_forbidden_step_blocks_the_batch
    (host : Host) (h : gmap loc (DataFrame host)) df_json d
    (selected : list AiEngine.CleaningStep) :
  read_json host df_json = Ok d ->
  ((exists step,
       step ∈ selected /\
       forbidden_keyword_found (AiEngine.code_snippet step) = true) ->
   outcome (execute_cleaning_code host (approved_request df_json selected) h)
     = Ok security_violation /\
   driver_invocations
     (trace (execute_cleaning_code host (approved_request df_json selected) h))
     = 0%nat) /\
  ((forall step,
       step ∈ selected ->
       forbidden_keyword_found (AiEngine.code_snippet step) = false) ->
   driver_invocations
     (trace (execute_cleaning_code host (approved_request df_json selected) h))
     = 1%nat).
Proof.
  intros Hread. split.
  - intros Hstep%existsb_elem_of. rewrite <- compose_code_scan in Hstep.
    destruct (execute_cleaning_code_path host (approved_request df_json selected) h);
      cbn [approved_request dataframe_json code_snippet] in *; try congruence.
    by split.
  - intros Hall. eapply accepted_snippet_is_executed_once; [exact Hread |].
    cbn [approved_request code_snippet].
    destruct (forbidden_keyword_found (compose_code selected)) eqn:Hcode; [| done].
    rewrite compose_code_scan in Hcode.
    apply existsb_elem_of in Hcode as (step & Hin & Hstep).
    rewrite (Hall step Hin) in Hstep. discriminate.
Qed.

Lemma forbidden_step_blocks_batch_on_demo :
  outcome (execute_cleaning_code Demo.host
             (approved_request "[{}]"
                [ DemoPlanner.step "step_1_drop_missing" "df = df.dropna()";
                  DemoPlanner.step "step_2_shell" "import os" ]) ∅)
    = Ok security_violation /\
  driver_invocations
    (trace (execute_cleaning_code Demo.host
              (approved_request "[{}]"
                 [ DemoPlanner.step "step_1_drop_missing" "df = df.dropna()";
                   DemoPlanner.step "step_2_shell" "import os" ]) ∅)) = 0%nat.
Proof.
  destruct (one_forbidden_step_blocks_the_batch Demo.host ∅ "[{}]" 1%nat
              [ DemoPlanner.step "step_1_drop_missing" "df = df.dropna()";
                DemoPlanner.step "step_2_shell" "import os" ] eq_refl)
    as [Hblocked _].
  apply Hblocked. exists (DemoPlanner.step "step_2_shell" "import os").
  split; [apply list_elem_of_further, list_elem_of_here | reflexivity].
Defined.

Lemma str_in_cons k x s :
  str_in k (String x s) = String.prefix k (String x s) || str_in k s.
Proof. reflexivity. Qed.

(** X11. The keyword is the word [import] followed by one space: the
    same statement written with a tab after [import] passes the scan
    whenever the rest of the snippet does. *)
Theorem import_with_a_tab_passes_the_scan rest :
  forbidden_keyword_found rest = false ->
  forbidden_keyword_found ("import" +:+ tab +:+ rest) = false.
Proof.
  unfold forbidden_keyword_found, FORBIDDEN_KEYWORDS. cbn [existsb].
  intros Hrest.
  cbv [tab String.append].
  rewrite !str_in_cons.
  repeat match goal with
         | |- context [String.prefix ?k (String ?x ?s)] =>
             change (String.prefix k (String x s)) with false
         end.
  exact Hrest.
Qed.

Lemma import_with_a_tab_on_demo :
  forbidden_keyword_found ("import" +:+ tab +:+ "os") = false.
Proof. apply (import_with_a_tab_passes_the_scan "os"). reflexivity. Defined.

(** * The planner *)

(** X12. Without an API key (the variable unset, or set to the empty
    string) the planner raises ValueError before anything else: no
    request goes to the model and nothing is printed. *)
Theorem planner_without_key_makes_no_call
    (service : AiEngine.Service) (getenv : option string) (data_profile : string) :
  AiEngine.truthy getenv = false ->
  AiEngine.generate_cleaning_plan service (AiEngine.init getenv).1 data_profile
    = (Raise AiEngine.missing_key, []).
Proof.
  destruct getenv as [[|c key]|]; intros Hkey; try discriminate Hkey; reflexivity.
Qed.

Lemma planner_with_empty_key_on_demo :
  AiEngine.generate_cleaning_plan DemoPlanner.service
    (AiEngine.init (Some "")).1 "Total Rows: 0"
    = (Raise (Exc ValueError "API Key is missing. Cannot call Gemini."), []).
Proof.
  apply (planner_without_key_makes_no_call DemoPlanner.service (Some "")
           "Total Rows: 0").
  reflexivity.
Defined.

Lemma init_with_key getenv :
  AiEngine.truthy getenv = true ->
  (AiEngine.init getenv).1
    = {| AiEngine.api_key := getenv; AiEngine.model := Some AiEngine.model_name |}.
Proof. destruct getenv as [[|c key]|]; intros Hkey; try discriminate Hkey; reflexivity. Qed.

(** X13. A planner built with an API key sends exactly one request to
    the model per call, and the prompt of that request carries the data
    quality report verbatim, between the fixed instructions. *)
Theorem planner_sends_the_report_once
    (service : AiEngine.Service) (getenv : option string) (data_profile : string) :
  AiEngine.truthy getenv = true ->
  AiEngine.api_calls
    (AiEngine.generate_cleaning_plan service (AiEngine.init getenv).1 data_profile).2
    = 1%nat /\
  AiEngine.GenerateContent AiEngine.model_name
    (AiEngine.prompt_before_report +:+ data_profile +:+ AiEngine.prompt_after_report)
    ∈ (AiEngine.generate_cleaning_plan service (AiEngine.init getenv).1 data_profile).2 /\
  str_in data_profile (AiEngine.system_prompt data_profile) = true.
Proof.
  intros Hkey. rewrite init_with_key by done.
  unfold AiEngine.generate_cleaning_plan, AiEngine.call_and_validate.
  cbn [AiEngine.api_key AiEngine.model]. rewrite Hkey. cbn [negb].
  fold (AiEngine.system_prompt data_profile).
  split; [| split].
  - destruct (AiEngine.generate_content _ _ _) as [text|e].
    + destruct (AiEngine.model_validate_json _ _) as [plan|e]; [reflexivity |].
      destruct (derives_from_Exception e); reflexivity.
    + destruct (derives_from_Exception e); reflexivity.
  - destruct (AiEngine.generate_content _ _ _) as [text|e].
    + destruct (AiEngine.model_validate_json _ _) as [plan|e];
        [apply list_elem_of_here |].
      destruct (derives_from_Exception e); apply list_elem_of_here.
    + destruct (derives_from_Exception e); apply list_elem_of_here.
  - apply str_in_iff. by eexists _, _.
Qed.

Lemma planner_sends_the_report_on_demo :
  AiEngine.api_calls
    (AiEngine.generate_cleaning_plan DemoPlanner.service
       (AiEngine.init (Some "test-key")).1 "Total Rows: 0").2 = 1%nat.
Proof.
  apply (planner_sends_the_report_once DemoPlanner.service (Some "test-key")
           "Total Rows: 0").
  reflexivity.
Defined.

(** X14. A planner built with an API key returns a plan exactly when
    the model answered and its answer validated, and then that plan;
    otherwise it raises the very error the model call or the validation
    raised, never another one. *)
Theorem planner_returns_the_validated_plan_or_the_error
    (service : AiEngine.Service) (getenv : option string) (data_profile : string) :
  AiEngine.truthy getenv = true ->
  (forall plan,
      (AiEngine.generate_cleaning_plan service (AiEngine.init getenv).1 data_profile).1
        = Ok plan <->
      exists text,
        AiEngine.generate_content service AiEngine.model_name
          (AiEngine.system_prompt data_profile) = Ok text /\
        AiEngine.model_validate_json service text = Ok plan) /\
  (forall e,
      (AiEngine.generate_cleaning_plan service (AiEngine.init getenv).1 data_profile).1
        = Raise e <->
      AiEngine.generate_content service AiEngine.model_name
        (AiEngine.system_prompt data_profile) = Raise e \/
      exists text,
        AiEngine.generate_content service AiEngine.model_name
          (AiEngine.system_prompt data_profile) = Ok text /\
        AiEngine.model_validate_json service text = Raise e).
Proof.
  intros Hkey. rewrite init_with_key by done.
  unfold AiEngine.generate_cleaning_plan, AiEngine.call_and_validate.
  cbn [AiEngine.api_key AiEngine.model]. rewrite Hkey. cbn [negb].
  destruct (AiEngine.generate_content _ _ _) as [text|e0] eqn:Hcall.
  - destruct (AiEngine.model_validate_json service text) as [plan0|e0] eqn:Hval.
    + split.
      * intros plan. cbn [fst]. split.
        -- intros [= <-]. by exists text.
        -- intros (text' & [= <-] & Hval'). congruence.
      * intros e. cbn [fst]. split; [discriminate |].
        intros [Hcontra | (text' & [= <-] & Hval')]; congruence.
    + assert (forall calls,
                 (if derives_from_Exception e0
                  then (Raise e0 : Result AiEngine.CleaningPlan,
                        calls ++ [AiEngine.Stdout ("Error calling Gemini API: " +:+ exc_str e0)])
                  else (Raise e0, calls)).1 = Raise e0) as Hraise
        by (intros calls; by destruct (derives_from_Exception e0)).
      rewrite Hraise. split.
      * intros plan. split; [discriminate |].
        intros (text' & [= <-] & Hval'). congruence.
      * intros e. split.
        -- intros [= <-]. right. by exists text.
        -- intros [Hcontra | (text' & [= <-] & Hval')]; congruence.
  - assert (forall calls,
               (if derives_from_Exception e0
                then (Raise e0 : Result AiEngine.CleaningPlan,
                      calls ++ [AiEngine.Stdout ("Error calling Gemini API: " +:+ exc_str e0)])
                else (Raise e0, calls)).1 = Raise e0) as Hraise
      by (intros calls; by destruct (derives_from_Exception e0)).
    rewrite Hraise. split.
    + intros plan. split; [discriminate |]. intros (text' & Hcontra & _). discriminate.
    + intros e. split.
      * intros [= <-]. by left.
      * intros [[= <-] | (text' & Hcontra & _)]; [done | discriminate].
Qed.

Lemma planner_keeps_the_quota_error_on_demo :
  (AiEngine.generate_cleaning_plan DemoPlanner.service
     (AiEngine.init (Some "test-key")).1 "Total Rows: 12").1
    = Raise (Exc (LibraryError "google.api_core.exceptions.ResourceExhausted")
                 "429 quota exceeded").
Proof.
  destruct (planner_returns_the_validated_plan_or_the_error DemoPlanner.service
              (Some "test-key") "Total Rows: 12" eq_refl) as [_ Herror].
  apply Herror. left. vm_compute. reflexivity.
Defined.
